(** * Feature-flag microservice: the flag store and its request handlers

    A shallow embedding of [app.py]: the process-wide [FLAGS] dictionary, the
    start-up routine [_initialize_flags] and the six route handlers, followed
    by the properties of the service's written contract.

    Conventions of the embedding.
    - A Python [str] is a [string]; each character stands for one code point
      below 256, and [str.lower], [str.strip] and [repr] are given on that
      range as CPython defines them there.
    - A JSON value as Python holds it after parsing is a [pyval].  A float is
      carried by its [repr] text, which is all the service ever asks of it
      (its truth value and its [str]).
    - A Python [dict] is an association list in insertion order: assignment
      to a present key keeps the key's position, assignment to a new key
      appends.
    - A handler is a function of the store returning an outcome and the store
      it leaves behind; an uncaught exception is an outcome of its own. *)

From Stdlib Require Import String Ascii List Bool Arith ZArith Lia.
From Stdlib Require Import DecimalString.
Import ListNotations.

Local Open Scope string_scope.
Local Open Scope bool_scope.
Set Warnings "-register-all".

(* ===================================================================== *)
(** ** Python strings *)
(* ===================================================================== *)

Module PyStr.

(** [ch.isspace()] for a code point below 256. *)
Definition isspace (c : ascii) : bool :=
  let n := nat_of_ascii c in
  (((9 <=? n) && (n <=? 13)) || ((28 <=? n) && (n <=? 32))
   || (n =? 133) || (n =? 160))%nat.

(** The lower-case mapping of one code point below 256: the ASCII capitals
    and the Latin-1 capitals (all of 0xC0..0xDE but the multiplication
    sign) move up by 32, every other code point is its own lower case. *)
Definition lower_char (c : ascii) : ascii :=
  let n := nat_of_ascii c in
  if (((65 <=? n) && (n <=? 90))
      || ((192 <=? n) && (n <=? 222) && negb (n =? 215)))%nat
  then ascii_of_nat (n + 32) else c.

(** [s.lower()] *)
Fixpoint lower (s : string) : string :=
  match s with
  | EmptyString => EmptyString
  | String c s' => String (lower_char c) (lower s')
  end.

(** [s.lstrip()] *)
Fixpoint lstrip (s : string) : string :=
  match s with
  | EmptyString => EmptyString
  | String c s' => if isspace c then lstrip s' else s
  end.

(** [s.rstrip()] *)
Fixpoint rstrip (s : string) : string :=
  match s with
  | EmptyString => EmptyString
  | String c s' =>
      match rstrip s' with
      | EmptyString => if isspace c then EmptyString else String c EmptyString
      | r => String c r
      end
  end.

(** [s.strip()] *)
Definition strip (s : string) : string := rstrip (lstrip s).

(** [sub in s] on strings. *)
Fixpoint contains (sub s : string) : bool :=
  String.prefix sub s
  || match s with
     | EmptyString => false
     | String _ s' => contains sub s'
     end.

(** [sep.join(l)] *)
Fixpoint join (sep : string) (l : list string) : string :=
  match l with
  | [] => ""
  | [x] => x
  | x :: rest => x ++ sep ++ join sep rest
  end.

(** [str(n)] for an [int]. *)
Definition str_of_int (z : Z) : string := NilZero.string_of_int (Z.to_int z).

Definition hex_digit (n : nat) : ascii :=
  if (n <? 10)%nat then ascii_of_nat (48 + n) else ascii_of_nat (87 + n).

(** [ch.isprintable()] for a code point below 256. *)
Definition isprintable (c : ascii) : bool :=
  let n := nat_of_ascii c in
  (((32 <=? n) && (n <=? 126))
   || ((161 <=? n) && negb (n =? 173)))%nat.

(** One character of [repr(s)], [q] being the chosen quote. *)
Definition repr_char (q c : ascii) : string :=
  let n := nat_of_ascii c in
  if Ascii.eqb c q || (n =? 92)%nat then String "\" (String c "")
  else if (n =? 9)%nat then "\t"
  else if (n =? 10)%nat then "\n"
  else if (n =? 13)%nat then "\r"
  else if isprintable c then String c ""
  else String "\" (String "x"
         (String (hex_digit (n / 16)) (String (hex_digit (n mod 16)) ""))).

Fixpoint repr_chars (q : ascii) (s : string) : string :=
  match s with
  | EmptyString => EmptyString
  | String c s' => repr_char q c ++ repr_chars q s'
  end.

Definition apostrophe : ascii := ascii_of_nat 39.
Definition dquote : ascii := ascii_of_nat 34.

Fixpoint has_char (q : ascii) (s : string) : bool :=
  match s with
  | EmptyString => false
  | String c s' => Ascii.eqb c q || has_char q s'
  end.

(** [repr(s)] for a [str]: single quotes, unless the text holds a single
    quote and no double quote. *)
Definition repr_str (s : string) : string :=
  let q := if has_char apostrophe s && negb (has_char dquote s)
           then dquote else apostrophe in
  String q (repr_chars q s ++ String q "").

End PyStr.

(* ===================================================================== *)
(** ** Python values and dictionaries *)
(* ===================================================================== *)

(** What [json.loads] can produce. *)
Inductive pyval : Type :=
| PNone
| PBool (b : bool)
| PInt (z : Z)
| PFloat (repr : string)
| PStr (s : string)
| PList (l : list pyval)
| PDict (d : list (string * pyval)).

Definition pydict : Type := list (string * pyval).

Module PyVal.

(** [repr(v)] *)
Fixpoint py_repr (v : pyval) : string :=
  match v with
  | PNone => "None"
  | PBool true => "True"
  | PBool false => "False"
  | PInt z => PyStr.str_of_int z
  | PFloat r => r
  | PStr s => PyStr.repr_str s
  | PList l => "[" ++ PyStr.join ", " (map py_repr l) ++ "]"
  | PDict d =>
      "{" ++ PyStr.join ", "
               (map (fun kv => PyStr.repr_str (fst kv) ++ ": " ++ py_repr (snd kv)) d)
          ++ "}"
  end.

(** [str(v)] *)
Definition py_str (v : pyval) : string :=
  match v with
  | PStr s => s
  | _ => py_repr v
  end.

(** [bool(v)] *)
Definition truthy (v : pyval) : bool :=
  match v with
  | PNone => false
  | PBool b => b
  | PInt z => negb (z =? 0)%Z
  | PFloat r => negb (String.eqb r "0.0" || String.eqb r "-0.0")
  | PStr s => negb (String.eqb s "")
  | PList l => match l with [] => false | _ => true end
  | PDict d => match d with [] => false | _ => true end
  end.

(** [a or b] *)
Definition py_or (a b : pyval) : pyval := if truthy a then a else b.

(** [v is None] *)
Definition is_none (v : pyval) : bool :=
  match v with PNone => true | _ => false end.

End PyVal.

Module PyDict.

(** [d.get(k)], [None] of the option standing for an absent key.  A
    dictionary has each key once; on a list that repeats a key, the first
    entry is the one read and written. *)
Fixpoint lookup (k : string) (d : pydict) : option pyval :=
  match d with
  | [] => None
  | (k', v) :: d' => if String.eqb k k' then Some v else lookup k d'
  end.

(** [d.get(k, default)] *)
Definition get (k : string) (default : pyval) (d : pydict) : pyval :=
  match lookup k d with Some v => v | None => default end.

(** [k in d] *)
Definition mem (k : string) (d : pydict) : bool :=
  match lookup k d with Some _ => true | None => false end.

(** [d[k] = v] *)
Fixpoint set (k : string) (v : pyval) (d : pydict) : pydict :=
  match d with
  | [] => [(k, v)]
  | (k', v') :: d' =>
      if String.eqb k k' then (k, v) :: d' else (k', v') :: set k v d'
  end.

End PyDict.

(* ===================================================================== *)
(** ** The service: [app.py] *)
(* ===================================================================== *)

Module App.

Import PyStr PyVal.

(** *** Effects: the store, and exceptions *)

Inductive exn : Type := AttributeError.

Inductive outcome (A : Type) : Type :=
| Returned (a : A)
| Raised (e : exn).
Arguments Returned {A} a.
Arguments Raised {A} e.

(** A computation over the module-level [FLAGS]; what was written before an
    exception stays written. *)
Definition Handler (A : Type) : Type := pydict -> outcome A * pydict.

Definition ret {A} (a : A) : Handler A := fun FLAGS => (Returned a, FLAGS).

Definition bind {A B} (m : Handler A) (k : A -> Handler B) : Handler B :=
  fun FLAGS =>
    match m FLAGS with
    | (Returned a, FLAGS') => k a FLAGS'
    | (Raised e, FLAGS') => (Raised e, FLAGS')
    end.

Definition raise {A} (e : exn) : Handler A := fun FLAGS => (Raised e, FLAGS).

(** Reading through [FLAGS]. *)
Definition reads {A} (f : pydict -> A) : Handler A :=
  fun FLAGS => (Returned (f FLAGS), FLAGS).

(** [FLAGS[name] = value] *)
Definition assign (name : string) (value : pyval) : Handler unit :=
  fun FLAGS => (Returned tt, PyDict.set name value FLAGS).

Declare Scope handler_scope.
Delimit Scope handler_scope with handler.
Notation "x <- m ;; k" := (bind m (fun x => k))
  (at level 61, m at next level, right associativity) : handler_scope.
Notation "m ;; k" := (bind m (fun _ => k))
  (at level 61, right associativity) : handler_scope.
Local Open Scope handler_scope.

(** *** Module constants *)

Definition ALLOWED_MODES : list string := ["test"; "production"].
Definition ENVIRONMENT_FLAG_NAME : string := "environment_mode".

(** [s in ALLOWED_MODES] *)
Definition in_ALLOWED_MODES (s : string) : bool :=
  existsb (String.eqb s) ALLOWED_MODES.

(** *** Start-up configuration *)

(** [os.environ] *)
Definition environ : Type := list (string * string).

(** The variable [key] of the environment, if it is set. *)
Fixpoint environ_lookup (key : string) (e : environ) : option string :=
  match e with
  | [] => None
  | (k, v) :: e' => if String.eqb key k then Some v else environ_lookup key e'
  end.

(** [os.environ.get(key, default)] *)
Definition environ_get (key default : string) (e : environ) : string :=
  match environ_lookup key e with
  | Some v => v
  | None => default
  end.

Definition _get_default_mode (e : environ) : string :=
  let env_mode := lower (environ_get "FEATURE_FLAG_DEFAULT_MODE" "test" e) in
  if in_ALLOWED_MODES env_mode then env_mode else "test".

Definition _initialize_flags (e : environ) : Handler unit :=
  let default_mode := _get_default_mode e in
  assign ENVIRONMENT_FLAG_NAME (PStr default_mode).

(** *** Requests and responses *)

(** The part of [flask.request] the handlers look at: whether the content
    type announces JSON, and what the body parses to ([None] when it does
    not parse). *)
Record Request : Type := mkRequest {
  is_json : bool;
  parsed_body : option pyval
}.

(** [request.get_json(silent=True)] *)
Definition get_json_silent (request : Request) : pyval :=
  if is_json request then
    match parsed_body request with
    | Some v => v
    | None => PNone
    end
  else PNone.

(** [payload.get(key, default)]: only a [dict] has the method. *)
Definition payload_get (payload : pyval) (key : string) (default : pyval)
  : Handler pyval :=
  match payload with
  | PDict d => ret (PyDict.get key default d)
  | _ => raise AttributeError
  end.

(** A handler's return value [(jsonify(...), code)]. *)
Record Response : Type := mkResponse {
  body : pydict;
  status : Z
}.

(** [jsonify] hands the dictionary over as the JSON document.  The order
    in which the keys are written out is the serializer's, so the
    properties below read a reply by its fields, not by their position. *)
Definition jsonify (d : pydict) : pydict := d.

Definition error_response (message : string) (code : Z) : Response :=
  mkResponse (jsonify [("status", PStr "error"); ("message", PStr message)]) code.

(** *** Route handlers *)

Definition health : Handler Response :=
  mode <- reads (PyDict.get ENVIRONMENT_FLAG_NAME (PStr "test")) ;;
  ret (mkResponse
         (jsonify [("status", PStr "ok");
                   ("service", PStr "feature-flag");
                   ("mode", mode)]) 200).

Definition get_all_flags : Handler Response :=
  flags <- reads (fun FLAGS => FLAGS) ;;
  ret (mkResponse (jsonify [("status", PStr "ok"); ("flags", PDict flags)]) 200).

Definition get_single_flag (name : string) : Handler Response :=
  present <- reads (PyDict.mem name) ;;
  if negb present then
    ret (error_response ("flag '" ++ name ++ "' not found") 404)
  else
    value <- reads (PyDict.get name PNone) ;;
    ret (mkResponse
           (jsonify [("status", PStr "ok"); ("name", PStr name); ("value", value)])
           200).

Definition create_or_update_flag (request : Request) : Handler Response :=
  if negb (is_json request) then
    ret (error_response "expected JSON body with 'name' and 'value' fields" 400)
  else
    let payload := py_or (get_json_silent request) (PDict []) in
    name_field <- payload_get payload "name" (PStr "") ;;
    let name := strip (py_str name_field) in
    value <- payload_get payload "value" PNone ;;
    if String.eqb name "" then
      ret (error_response "flag 'name' must be a non-empty string" 400)
    else if is_none value then
      ret (error_response "flag 'value' must be provided" 400)
    else
      let store (value : pyval) : Handler Response :=
        assign name value ;;
        ret (mkResponse
               (jsonify [("status", PStr "ok"); ("name", PStr name); ("value", value)])
               200) in
      if String.eqb name ENVIRONMENT_FLAG_NAME then
        let mode_str := lower (py_str value) in
        if negb (in_ALLOWED_MODES mode_str) then
          ret (error_response
                 "invalid mode; environment_mode must be 'test' or 'production'" 400)
        else store (PStr mode_str)
      else store value.

Definition get_mode : Handler Response :=
  mode <- reads (PyDict.get ENVIRONMENT_FLAG_NAME (PStr "test")) ;;
  ret (mkResponse (jsonify [("status", PStr "ok"); ("mode", mode)]) 200).

Definition set_mode (request : Request) : Handler Response :=
  if negb (is_json request) then
    ret (error_response "expected JSON body with a 'mode' field" 400)
  else
    let payload := py_or (get_json_silent request) (PDict []) in
    mode_field <- payload_get payload "mode" (PStr "") ;;
    let mode := strip (lower (py_str mode_field)) in
    if negb (in_ALLOWED_MODES mode) then
      ret (error_response "invalid mode; must be 'test' or 'production'" 400)
    else
      assign ENVIRONMENT_FLAG_NAME (PStr mode) ;;
      ret (mkResponse (jsonify [("status", PStr "ok"); ("mode", PStr mode)]) 200).

Definition not_found : Handler Response :=
  ret (error_response "endpoint not found" 404).

(** *** Routing *)

(** The requests as the URL map hands them to the handlers.  How the path
    of a [GET] request selects one of them is [Routes.route_GET]. *)

Inductive HttpRequest : Type :=
| GET_health
| GET_flags
| GET_flags_name (name : string)
| POST_flags (request : Request)
| GET_mode
| POST_mode (request : Request)
| Unmatched.

Definition dispatch (r : HttpRequest) : Handler Response :=
  match r with
  | GET_health => health
  | GET_flags => get_all_flags
  | GET_flags_name name => get_single_flag name
  | POST_flags request => create_or_update_flag request
  | GET_mode => get_mode
  | POST_mode request => set_mode request
  | Unmatched => not_found
  end.

(** The status line the client sees: an uncaught exception is answered
    with 500. *)
Definition status_code (o : outcome Response) : Z :=
  match o with
  | Returned r => status r
  | Raised _ => 500
  end.

(** A field of a JSON response body. *)
Definition field (key : string) (o : outcome Response) : option pyval :=
  match o with
  | Returned r => PyDict.lookup key (body r)
  | Raised _ => None
  end.

(** The text of the [message] field, empty when there is none. *)
Definition message (o : outcome Response) : string :=
  match field "message" o with
  | Some (PStr m) => m
  | _ => ""
  end.

(** *** Runs of the process *)

(** What happens to the store over the life of the process: a call of
    [_initialize_flags] under some environment, or a request. *)
Inductive event : Type :=
| Initialize (e : environ)
| Serve (r : HttpRequest).

Definition step (ev : event) (FLAGS : pydict) : pydict :=
  match ev with
  | Initialize e => snd (_initialize_flags e FLAGS)
  | Serve r => snd (dispatch r FLAGS)
  end.

Definition run (evs : list event) (FLAGS : pydict) : pydict :=
  fold_left (fun st ev => step ev st) evs FLAGS.

(** The store once the module is imported: [FLAGS = {}], then
    [_initialize_flags()]. *)
Definition startup (e : environ) : pydict := snd (_initialize_flags e []).

(** A request with a JSON content type and a body that parses to [v]. *)
Definition json_request (v : pyval) : Request := mkRequest true (Some v).

End App.

(* ===================================================================== *)
(** ** Vocabulary of the service's contract *)
(* ===================================================================== *)

Module Contract.

Import PyStr PyVal App.

(** Equality of two texts up to the case of their letters, character by
    character. *)
Fixpoint caseless_eqb (a b : string) : bool :=
  match a, b with
  | EmptyString, EmptyString => true
  | String x a', String y b' =>
      Ascii.eqb (lower_char x) (lower_char y) && caseless_eqb a' b'
  | _, _ => false
  end.

(** The mode the contract asks start-up to pick from the configuration
    value [cfg] ([None] when the variable is unset): the value in lower
    case when it matches an allowed mode up to case, ["test"] otherwise. *)
Definition configured_mode (cfg : option string) : string :=
  match cfg with
  | Some c =>
      if caseless_eqb c "test" || caseless_eqb c "production"
      then lower c else "test"
  | None => "test"
  end.

(** The store holds a valid environment mode. *)
Definition mode_invariant (FLAGS : pydict) : Prop :=
  PyDict.lookup ENVIRONMENT_FLAG_NAME FLAGS = Some (PStr "test") \/
  PyDict.lookup ENVIRONMENT_FLAG_NAME FLAGS = Some (PStr "production").

(** A message that tells the caller the shape [POST /flags] expects: it
    names both the ['name'] and the ['value'] field. *)
Definition indicates_expected_shape (msg : string) : bool :=
  contains "'name'" msg && contains "'value'" msg.

(** The reply to a successful [POST /flags]. *)
Definition ok_flag_response (name : string) (value : pyval) : Response :=
  mkResponse [("status", PStr "ok"); ("name", PStr name); ("value", value)] 200.

(** The reply to a successful [POST /mode]. *)
Definition ok_mode_response (mode : string) : Response :=
  mkResponse [("status", PStr "ok"); ("mode", PStr mode)] 200.

(** [POST /flags] with the JSON body [{"name": name, "value": value}]. *)
Definition post_flag (name value : pyval) : HttpRequest :=
  POST_flags (json_request (PDict [("name", name); ("value", value)])).

(** [POST /mode] with the JSON body [{"mode": mode}]. *)
Definition post_mode (mode : pyval) : HttpRequest :=
  POST_mode (json_request (PDict [("mode", mode)])).

End Contract.

(* ===================================================================== *)
(** ** The client helper: [feature_flags_client.py] *)
(* ===================================================================== *)

Module Client.

Import PyStr PyVal.

Definition ALLOWED_MODES : list string := ["test"; "production"].

(** [s in ALLOWED_MODES] *)
Definition in_ALLOWED_MODES (s : string) : bool :=
  existsb (String.eqb s) ALLOWED_MODES.

(** What [requests.get(url, timeout=1.0)] comes to: it raises (no
    connection, time-out), or it returns a response, of which the helper
    looks at the status code and at what [resp.json()] decodes ([None] when
    decoding raises). *)
Inductive http_result : Type :=
| RequestFailed
| HttpReply (status_code : Z) (json : option pyval).

Inductive client_exn : Type :=
| RequestException
| JSONDecodeError
| AttributeError.

(** [resp.ok]: the status code is not an error code, 400 to 599. *)
Definition ok (status_code : Z) : bool :=
  negb ((400 <=? status_code)%Z && (status_code <? 600)%Z).

(** The [try] block of [get_current_mode]: it raises, it returns a mode,
    or it runs to its end without returning ([None]). *)
Definition try_block (r : http_result) : client_exn + option string :=
  match r with
  | RequestFailed => inl RequestException
  | HttpReply status_code json =>
      if negb (ok status_code) then inr (Some "test")
      else
        match json with
        | None => inl JSONDecodeError
        | Some (PDict data) =>
            let mode := lower (py_str (PyDict.get "mode" (PStr "") data)) in
            if in_ALLOWED_MODES mode then inr (Some mode) else inr None
        | Some _ => inl AttributeError
        end
  end.

(** [get_current_mode()], as a function of what the request comes to:
    [except Exception: pass], then [return "test"]. *)
Definition get_current_mode (r : http_result) : string :=
  match try_block r with
  | inr (Some mode) => mode
  | inr None => "test"
  | inl _ => "test"
  end.

(** What the helper's request receives when the service handles it with
    outcome [o]: the JSON document and its code, or the 500 page, which is
    not JSON, after an uncaught exception. *)
Definition served (o : App.outcome App.Response) : http_result :=
  match o with
  | App.Returned r => HttpReply (App.status r) (Some (PDict (App.body r)))
  | App.Raised _ => HttpReply 500 None
  end.

(** [get_current_mode()] against a running service whose store is
    [FLAGS]: the helper requests [GET /mode]. *)
Definition get_current_mode_of (FLAGS : pydict) : string :=
  get_current_mode (served (fst (App.dispatch App.GET_mode FLAGS))).

End Client.

(* ===================================================================== *)
(** ** Vocabulary for the behaviour of the handlers *)
(* ===================================================================== *)

Module Observed.

Import PyStr PyVal App.

(** A text made of white space only (the empty text included). *)
Fixpoint all_space (s : string) : bool :=
  match s with
  | EmptyString => true
  | String c s' => isspace c && all_space s'
  end.

(** The keys of a dictionary, in its order. *)
Definition keys (d : pydict) : list string := map fst d.

(** The two routes that write. *)
Definition is_post (r : HttpRequest) : bool :=
  match r with
  | POST_flags _ | POST_mode _ => true
  | _ => false
  end.

(** The request a [POST] carries, if it is one. *)
Definition posted_request (r : HttpRequest) : option Request :=
  match r with
  | POST_flags request | POST_mode request => Some request
  | _ => None
  end.

(** A JSON value that is not text and not a float: null, a boolean, an
    integer, an array or an object. *)
Definition not_text (v : pyval) : bool :=
  match v with
  | PNone | PBool _ | PInt _ | PList _ | PDict _ => true
  | PFloat _ | PStr _ => false
  end.

(** A parsed body the handlers cannot call [.get] on: it is true in a
    boolean context, so [or {}] keeps it, and it is not an object. *)
Definition truthy_non_object (v : pyval) : bool :=
  truthy v && match v with PDict _ => false | _ => true end.

(** The first character of [str] of an integer, an array or an object is
    one of these. *)
Definition symbols : list ascii :=
  ["0"; "1"; "2"; "3"; "4"; "5"; "6"; "7"; "8"; "9"; "-"; "["; "{"]%char.

End Observed.

(* ===================================================================== *)
(** ** The URL map for [GET] requests *)
(* ===================================================================== *)

Module Routes.

Import PyStr App.

Definition slash : ascii := "/"%char.

(** A text cut at its slashes: the piece before the first slash, and the
    pieces after it. *)
Fixpoint split_slash (s : string) : string * list string :=
  match s with
  | EmptyString => (EmptyString, [])
  | String c s' =>
      let r := split_slash s' in
      if Ascii.eqb c slash then (EmptyString, fst r :: snd r)
      else (String c (fst r), snd r)
  end.

(** The segments of a request path: [/flags/a/b] is [flags], [a], [b].  A
    text that does not start with a slash is no path. *)
Definition segments (path : string) : list string :=
  match path with
  | EmptyString => []
  | String c rest =>
      if Ascii.eqb c slash
      then fst (split_slash rest) :: snd (split_slash rest)
      else []
  end.

(** What [<name>] of the rule [/flags/<name>] can be bound to: a text that
    is not empty and has no slash. *)
Definition is_segment (s : string) : bool :=
  negb (String.eqb s "") && negb (has_char slash s).

(** The rules [/health], [/flags], [/flags/<name>] and [/mode] applied to
    the segments of the path of a [GET] request; a path no rule matches
    goes to the 404 handler.  (Paths with a doubled slash, which the router
    may answer with a redirect, are not what this map is used on.) *)
Definition route_GET (segs : list string) : HttpRequest :=
  match segs with
  | [a] =>
      if String.eqb a "health" then GET_health
      else if String.eqb a "flags" then GET_flags
      else if String.eqb a "mode" then GET_mode
      else Unmatched
  | [a; name] =>
      if String.eqb a "flags" && negb (String.eqb name "")
      then GET_flags_name name
      else Unmatched
  | _ => Unmatched
  end.

(** The [GET] request for [path]. *)
Definition GET (path : string) : HttpRequest := route_GET (segments path).

End Routes.

Ltac refused := left; split; [reflexivity | discriminate].

(* ===================================================================== *)
(** ** Facts about dictionaries and strings *)
(* ===================================================================== *)

Module PyDictFacts.

Import PyDict.

Lemma lookup_set_same (k : string) (v : pyval) (d : pydict) :
  lookup k (set k v d) = Some v.
Proof.
  induction d as [|[k' v'] d IH]; simpl.
  - now rewrite String.eqb_refl.
  - destruct (String.eqb k k') eqn:E; simpl.
    + now rewrite String.eqb_refl.
    + now rewrite E.
Qed.

Lemma lookup_set_other (k k' : string) (v : pyval) (d : pydict) :
  k' <> k -> lookup k' (set k v d) = lookup k' d.
Proof.
  intros Hne.
  induction d as [|[k0 v0] d IH]; simpl.
  - destruct (String.eqb k' k) eqn:E; [|reflexivity].
    apply String.eqb_eq in E. contradiction.
  - destruct (String.eqb k k0) eqn:E; simpl.
    + apply String.eqb_eq in E. subst k0.
      destruct (String.eqb k' k) eqn:E'; [|reflexivity].
      apply String.eqb_eq in E'. contradiction.
    + now rewrite IH.
Qed.

(** A second assignment to the same key replaces the first one in place. *)
Lemma set_set (k : string) (v1 v2 : pyval) (d : pydict) :
  set k v2 (set k v1 d) = set k v2 d.
Proof.
  induction d as [|[k' v'] d IH]; simpl.
  - now rewrite String.eqb_refl.
  - destruct (String.eqb k k') eqn:E; simpl.
    + now rewrite String.eqb_refl.
    + now rewrite E, IH.
Qed.

Lemma mem_set_same (k : string) (v : pyval) (d : pydict) :
  mem k (set k v d) = true.
Proof. unfold mem. now rewrite lookup_set_same. Qed.

Lemma get_set_same (k : string) (v dflt : pyval) (d : pydict) :
  get k dflt (set k v d) = v.
Proof. unfold get. now rewrite lookup_set_same. Qed.

Lemma get_of_lookup (k : string) (v dflt : pyval) (d : pydict) :
  lookup k d = Some v -> get k dflt d = v.
Proof. unfold get. now intros ->. Qed.

End PyDictFacts.

Module PyStrFacts.

Import PyStr Contract.

Lemma caseless_eqb_lower (a b : string) :
  caseless_eqb a b = true <-> lower a = lower b.
Proof.
  revert b.
  induction a as [|x a IH]; intros [|y b]; simpl; try easy.
  rewrite andb_true_iff, Ascii.eqb_eq, IH.
  split.
  - now intros [-> ->].
  - now intros [= -> ->].
Qed.

Lemma caseless_eqb_dec (a b : string) :
  caseless_eqb a b = String.eqb (lower a) (lower b).
Proof.
  destruct (String.eqb (lower a) (lower b)) eqn:E.
  - apply caseless_eqb_lower. now apply String.eqb_eq.
  - destruct (caseless_eqb a b) eqn:C; [|reflexivity].
    apply caseless_eqb_lower in C. apply String.eqb_neq in E. contradiction.
Qed.

End PyStrFacts.

Module AppFacts.

Import PyStr PyVal App Contract.

Lemma in_ALLOWED_MODES_iff (s : string) :
  in_ALLOWED_MODES s = true <-> s = "test" \/ s = "production".
Proof.
  unfold in_ALLOWED_MODES, ALLOWED_MODES. simpl.
  rewrite !orb_true_iff, !String.eqb_eq. intuition discriminate.
Qed.

Lemma in_ALLOWED_MODES_false (s : string) :
  in_ALLOWED_MODES s = false <-> s <> "test" /\ s <> "production".
Proof.
  rewrite <- not_true_iff_false, in_ALLOWED_MODES_iff. tauto.
Qed.

(** An object payload survives [or {}] as it is. *)
Lemma payload_of_object (d : pydict) :
  py_or (get_json_silent (json_request (PDict d))) (PDict []) = PDict d.
Proof. now destruct d. Qed.

(** *** What the two writing handlers can do *)

(** [create_or_update_flag] either leaves the store alone and does not
    answer 200, or it went through every check and made one assignment. *)
Lemma create_or_update_flag_cases (request : Request) (FLAGS : pydict) :
  (snd (create_or_update_flag request FLAGS) = FLAGS /\
   status_code (fst (create_or_update_flag request FLAGS)) <> 200%Z)
  \/
  (exists (d : pydict) (stored : pyval),
      is_json request = true /\
      py_or (get_json_silent request) (PDict []) = PDict d /\
      let name := strip (py_str (PyDict.get "name" (PStr "") d)) in
      let value := PyDict.get "value" PNone d in
      name <> "" /\ value <> PNone /\
      (if String.eqb name ENVIRONMENT_FLAG_NAME
       then stored = PStr (lower (py_str value)) /\
            in_ALLOWED_MODES (lower (py_str value)) = true
       else stored = value) /\
      create_or_update_flag request FLAGS
      = (Returned (ok_flag_response name stored), PyDict.set name stored FLAGS)).
Proof.
  unfold create_or_update_flag.
  destruct (is_json request) eqn:Hj; simpl; [|refused].
  destruct (py_or (get_json_silent request) (PDict [])) as [| | | | | |d] eqn:Hp;
    try refused.
  cbn [payload_get bind ret].
  destruct (String.eqb (strip (py_str (PyDict.get "name" (PStr "") d))) "") eqn:Hn;
    [refused|].
  destruct (is_none (PyDict.get "value" PNone d)) eqn:Hv; [refused|].
  destruct (String.eqb (strip (py_str (PyDict.get "name" (PStr "") d)))
              ENVIRONMENT_FLAG_NAME) eqn:He.
  - destruct (in_ALLOWED_MODES (lower (py_str (PyDict.get "value" PNone d)))) eqn:Ha;
      simpl; [|refused].
    right. exists d, (PStr (lower (py_str (PyDict.get "value" PNone d)))).
    cbv zeta. rewrite He.
    repeat split; try assumption.
    + now apply String.eqb_neq.
    + intros E. now rewrite E in Hv.
  - right. exists d, (PyDict.get "value" PNone d).
    cbv zeta. rewrite He.
    repeat split.
    + now apply String.eqb_neq.
    + intros E. now rewrite E in Hv.
Qed.

(** The same for [set_mode]. *)
Lemma set_mode_cases (request : Request) (FLAGS : pydict) :
  (snd (set_mode request FLAGS) = FLAGS /\
   status_code (fst (set_mode request FLAGS)) <> 200%Z)
  \/
  (exists (d : pydict),
      is_json request = true /\
      py_or (get_json_silent request) (PDict []) = PDict d /\
      let mode := strip (lower (py_str (PyDict.get "mode" (PStr "") d))) in
      in_ALLOWED_MODES mode = true /\
      set_mode request FLAGS
      = (Returned (ok_mode_response mode),
         PyDict.set ENVIRONMENT_FLAG_NAME (PStr mode) FLAGS)).
Proof.
  unfold set_mode.
  destruct (is_json request) eqn:Hj; simpl; [|refused].
  destruct (py_or (get_json_silent request) (PDict [])) as [| | | | | |d] eqn:Hp;
    try refused.
  cbn [payload_get bind ret].
  destruct (in_ALLOWED_MODES (strip (lower (py_str (PyDict.get "mode" (PStr "") d)))))
    eqn:Ha; simpl; [|refused].
  right. exists d. now repeat split.
Qed.

(** [create_or_update_flag] on a request whose body parses to the object
    [d], as one decision list. *)
Lemma create_or_update_flag_object (d : pydict) (FLAGS : pydict) :
  create_or_update_flag (json_request (PDict d)) FLAGS
  = let name := strip (py_str (PyDict.get "name" (PStr "") d)) in
    let value := PyDict.get "value" PNone d in
    if String.eqb name "" then
      (Returned (error_response "flag 'name' must be a non-empty string" 400), FLAGS)
    else if is_none value then
      (Returned (error_response "flag 'value' must be provided" 400), FLAGS)
    else if String.eqb name ENVIRONMENT_FLAG_NAME then
      if in_ALLOWED_MODES (lower (py_str value)) then
        (Returned (ok_flag_response name (PStr (lower (py_str value)))),
         PyDict.set name (PStr (lower (py_str value))) FLAGS)
      else
        (Returned (error_response
                     "invalid mode; environment_mode must be 'test' or 'production'"
                     400), FLAGS)
    else (Returned (ok_flag_response name value), PyDict.set name value FLAGS).
Proof.
  unfold create_or_update_flag.
  change (is_json (json_request (PDict d))) with true.
  rewrite payload_of_object.
  cbn [negb payload_get bind ret]. cbv zeta.
  destruct (String.eqb (strip (py_str (PyDict.get "name" (PStr "") d))) "");
    [reflexivity|].
  destruct (is_none (PyDict.get "value" PNone d)); [reflexivity|].
  destruct (String.eqb (strip (py_str (PyDict.get "name" (PStr "") d)))
              ENVIRONMENT_FLAG_NAME); [|reflexivity].
  now destruct (in_ALLOWED_MODES (lower (py_str (PyDict.get "value" PNone d)))).
Qed.

(** A write of a non-null value under an ordinary name goes through. *)
Lemma create_or_update_flag_ordinary (d : pydict) (v : pyval) (FLAGS : pydict) :
  let name := strip (py_str (PyDict.get "name" (PStr "") d)) in
  name <> "" -> name <> ENVIRONMENT_FLAG_NAME ->
  PyDict.lookup "value" d = Some v -> v <> PNone ->
  create_or_update_flag (json_request (PDict d)) FLAGS
  = (Returned (ok_flag_response name v), PyDict.set name v FLAGS).
Proof.
  intros name Hn He Hv Hnone.
  rewrite create_or_update_flag_object. fold name. cbv zeta.
  apply String.eqb_neq in Hn, He. rewrite Hn, He.
  rewrite (PyDictFacts.get_of_lookup _ _ _ _ Hv).
  destruct v; try reflexivity. contradiction.
Qed.

(** [set_mode] on a request whose body parses to the object [d]. *)
Lemma set_mode_object (d : pydict) (FLAGS : pydict) :
  set_mode (json_request (PDict d)) FLAGS
  = let mode := strip (lower (py_str (PyDict.get "mode" (PStr "") d))) in
    if in_ALLOWED_MODES mode then
      (Returned (ok_mode_response mode),
       PyDict.set ENVIRONMENT_FLAG_NAME (PStr mode) FLAGS)
    else
      (Returned (error_response "invalid mode; must be 'test' or 'production'" 400),
       FLAGS).
Proof.
  unfold set_mode.
  change (is_json (json_request (PDict d))) with true.
  rewrite payload_of_object.
  cbn [negb payload_get bind ret]. cbv zeta.
  now destruct (in_ALLOWED_MODES (strip (lower (py_str (PyDict.get "mode" (PStr "") d))))).
Qed.

(** The readers, by what the store holds. *)
Lemma get_single_flag_present (name : string) (v : pyval) (FLAGS : pydict) :
  PyDict.lookup name FLAGS = Some v ->
  get_single_flag name FLAGS = (Returned (ok_flag_response name v), FLAGS).
Proof.
  intros H. unfold get_single_flag, bind, reads, ret, PyDict.mem, PyDict.get.
  rewrite H. simpl. now rewrite H.
Qed.

Lemma get_mode_present (v : pyval) (FLAGS : pydict) :
  PyDict.lookup ENVIRONMENT_FLAG_NAME FLAGS = Some v ->
  get_mode FLAGS
  = (Returned (mkResponse [("status", PStr "ok"); ("mode", v)] 200), FLAGS).
Proof.
  intros H. unfold get_mode, bind, reads, ret, PyDict.get. rewrite H. reflexivity.
Qed.

Lemma health_present (v : pyval) (FLAGS : pydict) :
  PyDict.lookup ENVIRONMENT_FLAG_NAME FLAGS = Some v ->
  health FLAGS
  = (Returned (mkResponse [("status", PStr "ok");
                           ("service", PStr "feature-flag");
                           ("mode", v)] 200), FLAGS).
Proof.
  intros H. unfold health, bind, reads, ret, PyDict.get. rewrite H. reflexivity.
Qed.

(** The read-only routes. *)
Lemma reading_routes_keep_store (r : HttpRequest) (FLAGS : pydict) :
  match r with POST_flags _ | POST_mode _ => False | _ => True end ->
  snd (dispatch r FLAGS) = FLAGS.
Proof.
  destruct r; simpl; try easy.
  intros _. unfold get_single_flag, bind, reads.
  now destruct (negb (PyDict.mem name FLAGS)).
Qed.

Lemma _get_default_mode_allowed (e : environ) :
  in_ALLOWED_MODES (_get_default_mode e) = true.
Proof.
  unfold _get_default_mode.
  now destruct (in_ALLOWED_MODES (lower (environ_get "FEATURE_FLAG_DEFAULT_MODE" "test" e)))
    eqn:E.
Qed.

Lemma mode_invariant_set (m : string) (FLAGS : pydict) :
  in_ALLOWED_MODES m = true ->
  mode_invariant (PyDict.set ENVIRONMENT_FLAG_NAME (PStr m) FLAGS).
Proof.
  intros H. apply in_ALLOWED_MODES_iff in H.
  unfold mode_invariant. rewrite PyDictFacts.lookup_set_same.
  destruct H as [-> | ->]; auto.
Qed.

Lemma initialize_establishes (e : environ) (FLAGS : pydict) :
  mode_invariant (snd (_initialize_flags e FLAGS)).
Proof. apply mode_invariant_set, _get_default_mode_allowed. Qed.

Lemma dispatch_preserves (r : HttpRequest) (FLAGS : pydict) :
  mode_invariant FLAGS -> mode_invariant (snd (dispatch r FLAGS)).
Proof.
  intros Inv.
  destruct r as [| |name|request| |request|];
    try (rewrite reading_routes_keep_store; easy).
  - simpl.
    destruct (create_or_update_flag_cases request FLAGS)
      as [[-> _] | (d & stored & _ & _ & Hname & _ & Hst & ->)]; [assumption|].
    cbv zeta in Hst. simpl snd.
    destruct (String.eqb (strip (py_str (PyDict.get "name" (PStr "") d)))
                ENVIRONMENT_FLAG_NAME) eqn:He.
    + apply String.eqb_eq in He. rewrite He.
      destruct Hst as [-> Ha]. now apply mode_invariant_set.
    + apply String.eqb_neq in He.
      unfold mode_invariant.
      rewrite PyDictFacts.lookup_set_other by (intros E; now apply He).
      exact Inv.
  - simpl.
    destruct (set_mode_cases request FLAGS) as [[-> _] | (d & _ & _ & Ha & ->)];
      [assumption|].
    now apply mode_invariant_set.
Qed.

Lemma step_preserves (ev : event) (FLAGS : pydict) :
  mode_invariant FLAGS -> mode_invariant (step ev FLAGS).
Proof.
  destruct ev as [e | r]; simpl.
  - intros _. apply initialize_establishes.
  - apply dispatch_preserves.
Qed.

Lemma run_preserves (evs : list event) (FLAGS : pydict) :
  mode_invariant FLAGS -> mode_invariant (run evs FLAGS).
Proof.
  revert FLAGS.
  induction evs as [|ev evs IH]; intros FLAGS Inv; simpl; [assumption|].
  apply IH, step_preserves, Inv.
Qed.

End AppFacts.

Module RoutesFacts.

Import PyStr App Routes.

Lemma split_slash_segment (s : string) :
  has_char slash s = false -> split_slash s = (s, []).
Proof.
  induction s as [|c s IH]; simpl; [reflexivity|].
  intros H. apply orb_false_iff in H. destruct H as [Hc Hs].
  rewrite Hc, (IH Hs). reflexivity.
Qed.

(** [GET /flags/{name}] reaches [get_single_flag] with that name when the
    name is one segment. *)
Lemma GET_flags_segment (name : string) :
  is_segment name = true -> GET ("/flags/" ++ name) = GET_flags_name name.
Proof.
  unfold is_segment. intros H. apply andb_true_iff in H. destruct H as [Hne Hs].
  apply negb_true_iff in Hs.
  unfold GET, segments. simpl.
  rewrite (split_slash_segment name Hs). simpl.
  now rewrite Hne.
Qed.

End RoutesFacts.

(* ===================================================================== *)
(** ** Properties of the service *)
(* ===================================================================== *)

Import PyStr PyVal App Contract PyDictFacts PyStrFacts AppFacts.
Import Routes RoutesFacts.

(** *** The environment mode *)

(** C1. After [_initialize_flags], whatever the store held before and
    whatever the environment says, and after any further sequence of
    requests (the six routes, unmatched ones, requests that end in an
    exception) and repeated initializations, the store has the key
    ["environment_mode"] and its value is ["test"] or ["production"]. *)
Theorem environment_mode_invariant :
  forall (e : environ) (FLAGS0 : pydict) (evs : list event),
    mode_invariant (run evs (snd (_initialize_flags e FLAGS0))).
Proof.
  intros e FLAGS0 evs.
  apply run_preserves, initialize_establishes.
Qed.

(** C2. After [POST /mode] with an allowed mode [m], the three readers
    agree on [m]: [GET /mode], [GET /flags/environment_mode] and
    [GET /health]. *)
Theorem mode_views_agree :
  forall (m : string) (FLAGS : pydict),
    m = "test" \/ m = "production" ->
    let posted := dispatch (post_mode (PStr m)) FLAGS in
    fst posted = Returned (ok_mode_response m) /\
    fst (dispatch GET_mode (snd posted)) = Returned (ok_mode_response m) /\
    fst (dispatch (GET_flags_name ENVIRONMENT_FLAG_NAME) (snd posted))
    = Returned (ok_flag_response ENVIRONMENT_FLAG_NAME (PStr m)) /\
    status_code (fst (dispatch GET_health (snd posted))) = 200%Z /\
    field "mode" (fst (dispatch GET_health (snd posted))) = Some (PStr m).
Proof.
  intros m FLAGS Hm.
  assert (Hpost : dispatch (post_mode (PStr m)) FLAGS
                  = (Returned (ok_mode_response m),
                     PyDict.set ENVIRONMENT_FLAG_NAME (PStr m) FLAGS))
    by (destruct Hm as [-> | ->]; reflexivity).
  cbv zeta. rewrite Hpost. cbn [fst snd].
  pose proof (lookup_set_same ENVIRONMENT_FLAG_NAME (PStr m) FLAGS) as Hstored.
  unfold dispatch.
  rewrite (get_mode_present _ _ Hstored), (get_single_flag_present _ _ _ Hstored),
    (health_present _ _ Hstored).
  repeat split.
Qed.

Lemma mode_views_agree_witness :
  let m := "production" in
  let posted := dispatch (post_mode (PStr m)) (startup []) in
  fst posted = Returned (ok_mode_response m) /\
  fst (dispatch GET_mode (snd posted)) = Returned (ok_mode_response m) /\
  fst (dispatch (GET_flags_name ENVIRONMENT_FLAG_NAME) (snd posted))
  = Returned (ok_flag_response ENVIRONMENT_FLAG_NAME (PStr m)) /\
  status_code (fst (dispatch GET_health (snd posted))) = 200%Z /\
  field "mode" (fst (dispatch GET_health (snd posted))) = Some (PStr m).
Proof.
  apply (mode_views_agree "production" (startup [])).
  right. reflexivity.
Defined.

(** *** Initialization *)

(** C3, as the contract words it, fails: a flag written before
    [_initialize_flags] is still there afterwards. *)
Lemma initialize_keeps_other_flags :
  let prior := [("beta", PBool true)] in
  let after := snd (_initialize_flags [] prior) in
  after <> [(ENVIRONMENT_FLAG_NAME, PStr (_get_default_mode []))] /\
  PyDict.lookup "beta" after = Some (PBool true).
Proof. split; [discriminate | reflexivity]. Qed.

(** C3, amended. [_initialize_flags] is idempotent, and it assigns the
    environment-mode entry only: a second call under the same environment
    leaves the store as the first call left it, and every other key maps
    after the call to what it mapped to before. *)
Theorem initialize_idempotent_and_framed :
  forall (e : environ) (FLAGS : pydict),
    let once := snd (_initialize_flags e FLAGS) in
    snd (_initialize_flags e once) = once /\
    PyDict.lookup ENVIRONMENT_FLAG_NAME once = Some (PStr (_get_default_mode e)) /\
    (forall k : string,
        k <> ENVIRONMENT_FLAG_NAME -> PyDict.lookup k once = PyDict.lookup k FLAGS).
Proof.
  intros e FLAGS. cbv zeta. unfold _initialize_flags, assign. simpl.
  split; [apply set_set|].
  split; [apply lookup_set_same|].
  intros k Hk. now apply lookup_set_other.
Qed.

Lemma initialize_idempotent_and_framed_witness :
  let FLAGS := [("environment_mode", PStr "production"); ("beta", PBool true)] in
  let once := snd (_initialize_flags [] FLAGS) in
  PyDict.lookup "beta" once = PyDict.lookup "beta" FLAGS.
Proof.
  cbv zeta.
  apply (proj2 (proj2 (initialize_idempotent_and_framed []
           [("environment_mode", PStr "production"); ("beta", PBool true)]))).
  discriminate.
Defined.

(** C7. [_initialize_flags] overwrites the environment-mode entry with the
    configured mode: the value of [FEATURE_FLAG_DEFAULT_MODE] in lower case
    when it matches ["test"] or ["production"] up to case, and ["test"] for
    any other value and when the variable is unset. *)
Theorem initialize_seeds_configured_mode :
  forall (e : environ) (FLAGS : pydict),
    PyDict.lookup ENVIRONMENT_FLAG_NAME (snd (_initialize_flags e FLAGS))
    = Some (PStr (configured_mode (environ_lookup "FEATURE_FLAG_DEFAULT_MODE" e))).
Proof.
  intros e FLAGS. unfold _initialize_flags, assign. simpl.
  rewrite lookup_set_same. do 2 f_equal.
  unfold _get_default_mode, environ_get, configured_mode.
  destruct (environ_lookup "FEATURE_FLAG_DEFAULT_MODE" e) as [c|]; [|reflexivity].
  rewrite !caseless_eqb_dec.
  unfold in_ALLOWED_MODES, ALLOWED_MODES. simpl existsb.
  now rewrite orb_false_r.
Qed.

(** *** Rejections *)

(** C4, as worded, fails where the content type is JSON and the body does
    not parse: the reply is 400, but its message is the one of the name
    check, which says nothing of a ['value'] field. *)
Lemma unparsable_body_gets_name_message :
  let request := mkRequest true None in
  let reply := fst (dispatch (POST_flags request) (startup [])) in
  parsed_body request = None /\
  status_code reply = 400%Z /\
  message reply = "flag 'name' must be a non-empty string" /\
  indicates_expected_shape (message reply) = false.
Proof. repeat split. Qed.

(** C4, amended. [POST /flags] without a JSON content type is answered 400
    with the message that gives the expected shape; with a JSON content
    type and a body that does not parse it is answered 400 with the message
    of the name check.  The store is left as it was in both cases. *)
Theorem post_flags_rejects_invalid_json :
  forall (request : Request) (FLAGS : pydict),
    (is_json request = false ->
     dispatch (POST_flags request) FLAGS
     = (Returned (error_response
                    "expected JSON body with 'name' and 'value' fields" 400), FLAGS)
     /\ indicates_expected_shape
          (message (fst (dispatch (POST_flags request) FLAGS))) = true)
    /\
    (is_json request = true -> parsed_body request = None ->
     dispatch (POST_flags request) FLAGS
     = (Returned (error_response "flag 'name' must be a non-empty string" 400),
        FLAGS)).
Proof.
  intros [j b] FLAGS. simpl. split.
  - intros ->. split; reflexivity.
  - intros -> ->. reflexivity.
Qed.

Lemma post_flags_rejects_invalid_json_witness :
  dispatch (POST_flags (mkRequest false (Some (PStr "name=a&value=1")))) (startup [])
  = (Returned (error_response
                 "expected JSON body with 'name' and 'value' fields" 400),
     startup [])
  /\
  dispatch (POST_flags (mkRequest true None)) (startup [])
  = (Returned (error_response "flag 'name' must be a non-empty string" 400),
     startup []).
Proof.
  split.
  - apply (proj1 (post_flags_rejects_invalid_json
                    (mkRequest false (Some (PStr "name=a&value=1"))) (startup []))).
    reflexivity.
  - apply (proj2 (post_flags_rejects_invalid_json (mkRequest true None) (startup [])));
      reflexivity.
Defined.

(** C5, as worded, fails when the name is rejected too: the name check
    runs first, and its message does not mention ["value"]. *)
Lemma null_value_without_name_gets_name_message :
  let d := [("value", PNone)] in
  let posted := dispatch (POST_flags (json_request (PDict d))) (startup []) in
  PyDict.lookup "value" d = Some PNone /\
  status_code (fst posted) = 400%Z /\
  message (fst posted) = "flag 'name' must be a non-empty string" /\
  contains "value" (message (fst posted)) = false.
Proof. repeat split. Qed.

(** C5, amended. On a [POST /flags] whose body is an object, a value that
    is missing or null is answered 400 and the store is left as it was; once the name
    has passed its own check, which comes first, the message is the one
    about ['value'].  Any other value, the boolean false and the number 0
    among them, gets no message that mentions ["value"], and under an
    ordinary name it is stored. *)
Theorem absent_value_rejected_false_and_zero_kept :
  forall (d : pydict) (FLAGS : pydict),
    let posted := dispatch (POST_flags (json_request (PDict d))) FLAGS in
    let name := strip (py_str (PyDict.get "name" (PStr "") d)) in
    (PyDict.lookup "value" d = None \/ PyDict.lookup "value" d = Some PNone ->
     status_code (fst posted) = 400%Z /\
     snd posted = FLAGS /\
     (name <> "" ->
      message (fst posted) = "flag 'value' must be provided" /\
      contains "value" (message (fst posted)) = true))
    /\
    (forall v : pyval,
        v <> PNone ->
        PyDict.lookup "value" d = Some v ->
        contains "value" (message (fst posted)) = false /\
        (name <> "" -> name <> ENVIRONMENT_FLAG_NAME ->
         posted = (Returned (ok_flag_response name v), PyDict.set name v FLAGS)))
    /\
    (forall v : pyval,
        v = PBool false \/ v = PInt 0 ->
        PyDict.lookup "value" d = Some v ->
        message (fst posted) <> "flag 'value' must be provided").
Proof.
  intros d FLAGS posted name.
  assert (Hpresent : forall v : pyval,
             v <> PNone -> PyDict.lookup "value" d = Some v ->
             contains "value" (message (fst posted)) = false /\
             (name <> "" -> name <> ENVIRONMENT_FLAG_NAME ->
              posted = (Returned (ok_flag_response name v), PyDict.set name v FLAGS))).
  { intros v Hnn Hv. subst posted. unfold dispatch.
    rewrite create_or_update_flag_object. fold name. cbv zeta.
    rewrite (get_of_lookup _ _ _ _ Hv).
    assert (Hnone : is_none v = false)
      by (destruct v; [contradiction | reflexivity ..]).
    rewrite Hnone.
    destruct (String.eqb name "") eqn:Hn.
    - split; [reflexivity|]. intros Hne. apply String.eqb_eq in Hn. contradiction.
    - destruct (String.eqb name ENVIRONMENT_FLAG_NAME) eqn:He.
      + destruct (in_ALLOWED_MODES (lower (py_str v)));
          (split; [reflexivity|]); intros _ Hne;
          apply String.eqb_eq in He; contradiction.
      + split; reflexivity. }
  split; [|split].
  - intros Habsent. subst posted. unfold dispatch.
    rewrite create_or_update_flag_object. fold name. cbv zeta.
    assert (Hv : PyDict.get "value" PNone d = PNone)
      by (unfold PyDict.get; destruct Habsent as [-> | ->]; reflexivity).
    rewrite Hv. cbn [is_none].
    destruct (String.eqb name "") eqn:Hn.
    + split; [reflexivity|]. split; [reflexivity|].
      intros Hne. apply String.eqb_eq in Hn. contradiction.
    + split; [reflexivity|]. split; [reflexivity|].
      intros _. split; reflexivity.
  - exact Hpresent.
  - intros v Hkind Hv Hmsg.
    assert (Hnn : v <> PNone) by (destruct Hkind as [-> | ->]; discriminate).
    destruct (Hpresent v Hnn Hv) as [Hno _].
    rewrite Hmsg in Hno. discriminate.
Qed.

Lemma absent_value_rejected_false_and_zero_kept_witness :
  (let posted := dispatch (post_flag (PStr "some_flag") PNone) (startup []) in
   status_code (fst posted) = 400%Z /\ snd posted = startup [] /\
   message (fst posted) = "flag 'value' must be provided")
  /\
  (let posted := dispatch (post_flag (PStr "dark_mode") (PBool false)) (startup []) in
   contains "value" (message (fst posted)) = false /\
   posted = (Returned (ok_flag_response "dark_mode" (PBool false)),
             PyDict.set "dark_mode" (PBool false) (startup [])))
  /\
  (let posted := dispatch (post_flag (PStr "retries") (PInt 0)) (startup []) in
   contains "value" (message (fst posted)) = false /\
   posted = (Returned (ok_flag_response "retries" (PInt 0)),
             PyDict.set "retries" (PInt 0) (startup []))).
Proof.
  split; [|split]; cbv zeta.
  - destruct (proj1 (absent_value_rejected_false_and_zero_kept
                       [("name", PStr "some_flag"); ("value", PNone)] (startup []))
                (or_intror eq_refl)) as (Hs & Hst & Hm).
    split; [exact Hs | split; [exact Hst | apply Hm; discriminate]].
  - destruct (proj1 (proj2 (absent_value_rejected_false_and_zero_kept
                       [("name", PStr "dark_mode"); ("value", PBool false)] (startup [])))
                (PBool false)) as (Hm & Hok); [discriminate | reflexivity |].
    split; [exact Hm | apply Hok; discriminate].
  - destruct (proj1 (proj2 (absent_value_rejected_false_and_zero_kept
                       [("name", PStr "retries"); ("value", PInt 0)] (startup [])))
                (PInt 0)) as (Hm & Hok); [discriminate | reflexivity |].
    split; [exact Hm | apply Hok; discriminate].
Defined.

(** C6. [POST /mode] with a mode text whose lower-cased, stripped form is
    neither ["test"] nor ["production"] is answered 400 with a message that
    contains ["invalid mode"], and the store, so the stored environment
    mode, is what it was before the request. *)
Theorem set_mode_rejects_invalid_mode :
  forall (s : string) (FLAGS : pydict),
    strip (lower s) <> "test" -> strip (lower s) <> "production" ->
    let posted := dispatch (post_mode (PStr s)) FLAGS in
    status_code (fst posted) = 400%Z /\
    contains "invalid mode" (message (fst posted)) = true /\
    snd posted = FLAGS /\
    PyDict.lookup ENVIRONMENT_FLAG_NAME (snd posted)
    = PyDict.lookup ENVIRONMENT_FLAG_NAME FLAGS.
Proof.
  intros s FLAGS Ht Hp posted. subst posted.
  unfold dispatch, post_mode. rewrite set_mode_object. cbv zeta.
  change (py_str (PyDict.get "mode" (PStr "") [("mode", PStr s)])) with s.
  assert (Hno : in_ALLOWED_MODES (strip (lower s)) = false)
    by (apply in_ALLOWED_MODES_false; split; assumption).
  rewrite Hno. repeat split.
Qed.

Lemma set_mode_rejects_invalid_mode_witness :
  (snd (dispatch (post_mode (PStr "prod")) (startup [])) = startup [] /\
   status_code (fst (dispatch (post_mode (PStr "prod")) (startup []))) = 400%Z)
  /\
  (snd (dispatch (post_mode (PStr "")) (startup [])) = startup [] /\
   status_code (fst (dispatch (post_mode (PStr "")) (startup []))) = 400%Z)
  /\
  (snd (dispatch (post_mode (PStr "PRODUCTION_X")) (startup [])) = startup [] /\
   status_code (fst (dispatch (post_mode (PStr "PRODUCTION_X")) (startup []))) = 400%Z).
Proof.
  split; [|split].
  - destruct (set_mode_rejects_invalid_mode "prod" (startup []))
      as (Hs & _ & Hst & _); [discriminate | discriminate | now split].
  - destruct (set_mode_rejects_invalid_mode "" (startup []))
      as (Hs & _ & Hst & _); [discriminate | discriminate | now split].
  - destruct (set_mode_rejects_invalid_mode "PRODUCTION_X" (startup []))
      as (Hs & _ & Hst & _); [discriminate | discriminate | now split].
Defined.

(** *** Writing and reading back *)

(** C8, as worded, fails on names with surrounding white space: the flag
    posted as [" x"] is stored under ["x"], so reading [" x"] back finds
    nothing; a name of blanks only is refused; and a padded
    [" environment_mode"] falls under the rules of the reserved key.  It
    fails on names with a slash as well: ["a/b"] is stored, but no rule
    matches the path [/flags/a/b]. *)
Lemma padded_name_is_not_read_back :
  let n := " x" in
  let posted := dispatch (post_flag (PStr n) (PBool true)) (startup []) in
  (n <> "" /\ n <> ENVIRONMENT_FLAG_NAME /\
   status_code (fst posted) = 200%Z /\
   status_code (fst (dispatch (GET_flags_name n) (snd posted))) = 404%Z /\
   field "value" (fst (dispatch (GET_flags_name n) (snd posted))) = None)
  /\
  status_code (fst (dispatch (post_flag (PStr " ") (PBool true)) (startup [])))
  = 400%Z
  /\
  status_code
    (fst (dispatch (post_flag (PStr " environment_mode") (PBool true)) (startup [])))
  = 400%Z
  /\
  (fst (dispatch (post_flag (PStr "a/b") (PBool true)) (startup []))
   = Returned (ok_flag_response "a/b" (PBool true)) /\
   fst (dispatch (GET "/flags/a/b")
          (snd (dispatch (post_flag (PStr "a/b") (PBool true)) (startup []))))
   = Returned (error_response "endpoint not found" 404)).
Proof. repeat split; discriminate. Qed.

(** C8, amended. Let [t] be the name [n] stripped of surrounding white
    space, one path segment (not empty, no slash) and not the reserved key,
    and [v], [v2] non-null values.  [POST /flags] with [{name:n, value:v}]
    is answered 200 and a following [GET /flags/t] returns [v] as it was
    sent; a later write of [v2] under the same name is what the next read
    returns; and repeating a write leaves the store as the first one left
    it. *)
Theorem post_flags_then_get_roundtrip :
  forall (n : string) (v v2 : pyval) (FLAGS : pydict),
    let t := strip n in
    is_segment t = true -> t <> ENVIRONMENT_FLAG_NAME -> v <> PNone -> v2 <> PNone ->
    let first := dispatch (post_flag (PStr n) v) FLAGS in
    let second := dispatch (post_flag (PStr n) v2) (snd first) in
    fst first = Returned (ok_flag_response t v) /\
    fst (dispatch (GET ("/flags/" ++ t)) (snd first))
    = Returned (ok_flag_response t v) /\
    fst second = Returned (ok_flag_response t v2) /\
    fst (dispatch (GET ("/flags/" ++ t)) (snd second))
    = Returned (ok_flag_response t v2) /\
    snd (dispatch (post_flag (PStr n) v) (snd first)) = snd first.
Proof.
  intros n v v2 FLAGS t Hseg He Hv Hv2.
  assert (Ht : t <> "").
  { intros E. unfold is_segment in Hseg. rewrite E in Hseg. discriminate. }
  assert (Hpost : forall (x : pyval) (st : pydict),
             x <> PNone ->
             dispatch (post_flag (PStr n) x) st
             = (Returned (ok_flag_response t x), PyDict.set t x st)).
  { intros x st Hx. unfold dispatch, post_flag.
    now apply (create_or_update_flag_ordinary [("name", PStr n); ("value", x)] x st). }
  cbv zeta. rewrite !Hpost by assumption. cbn [fst snd].
  rewrite (GET_flags_segment t Hseg).
  unfold dispatch.
  rewrite (get_single_flag_present t v) by apply lookup_set_same.
  rewrite (get_single_flag_present t v2) by apply lookup_set_same.
  cbn [fst]. repeat split.
  apply set_set.
Qed.

Lemma post_flags_then_get_roundtrip_witness :
  let first := dispatch (post_flag (PStr "  x  ") (PInt 1)) (startup []) in
  let second := dispatch (post_flag (PStr "  x  ") (PStr "on")) (snd first) in
  fst first = Returned (ok_flag_response "x" (PInt 1)) /\
  fst (dispatch (GET "/flags/x") (snd first))
  = Returned (ok_flag_response "x" (PInt 1)) /\
  fst second = Returned (ok_flag_response "x" (PStr "on")) /\
  fst (dispatch (GET "/flags/x") (snd second))
  = Returned (ok_flag_response "x" (PStr "on")) /\
  snd (dispatch (post_flag (PStr "  x  ") (PInt 1)) (snd first)) = snd first.
Proof.
  apply (post_flags_then_get_roundtrip "  x  " (PInt 1) (PStr "on") (startup []));
    first [reflexivity | discriminate].
Defined.

(** C9. A successful write changes the mapping of one key at most.  After
    a [POST /flags] answered 200 every key other than the one named in the
    reply maps to what it mapped to before; after a [POST /mode] answered
    200 the same holds of every key other than ["environment_mode"]. *)
Theorem successful_write_touches_one_key :
  forall (request : Request) (FLAGS : pydict),
    (status_code (fst (dispatch (POST_flags request) FLAGS)) = 200%Z ->
     exists target : string,
       field "name" (fst (dispatch (POST_flags request) FLAGS)) = Some (PStr target) /\
       forall k : string,
         k <> target ->
         PyDict.lookup k (snd (dispatch (POST_flags request) FLAGS))
         = PyDict.lookup k FLAGS)
    /\
    (status_code (fst (dispatch (POST_mode request) FLAGS)) = 200%Z ->
     forall k : string,
       k <> ENVIRONMENT_FLAG_NAME ->
       PyDict.lookup k (snd (dispatch (POST_mode request) FLAGS))
       = PyDict.lookup k FLAGS).
Proof.
  intros request FLAGS. unfold dispatch. split.
  - intros Hok.
    destruct (create_or_update_flag_cases request FLAGS)
      as [[_ Hno] | (d & stored & _ & _ & _ & _ & _ & Heq)]; [contradiction|].
    rewrite Heq. cbn [fst snd].
    eexists. split; [reflexivity|].
    intros k Hk. now apply lookup_set_other.
  - intros Hok.
    destruct (set_mode_cases request FLAGS) as [[_ Hno] | (d & _ & _ & _ & Heq)];
      [contradiction|].
    rewrite Heq. cbn [snd].
    intros k Hk. now apply lookup_set_other.
Qed.

Lemma successful_write_touches_one_key_witness :
  PyDict.lookup "environment_mode"
    (snd (dispatch (post_flag (PStr "beta") (PBool true)) (startup [])))
  = PyDict.lookup "environment_mode" (startup [])
  /\
  PyDict.lookup "beta"
    (snd (dispatch (post_mode (PStr "production")) [("beta", PBool true)]))
  = PyDict.lookup "beta" [("beta", PBool true)].
Proof.
  split.
  - destruct (proj1 (successful_write_touches_one_key
                       (json_request (PDict [("name", PStr "beta"); ("value", PBool true)]))
                       (startup [])) eq_refl) as (target & Hname & Hframe).
    apply Hframe. injection Hname as <-. discriminate.
  - apply (proj2 (successful_write_touches_one_key
                    (json_request (PDict [("mode", PStr "production")]))
                    [("beta", PBool true)]) eq_refl).
    discriminate.
Defined.

(** C10. On every [POST /flags] answered 200 the body was an object that
    supplied a name, and the key written, which is also the name in the
    reply, is [str] of that name stripped of surrounding white space.  So
    the number 123 is accepted as a name and stored under ["123"], and
    ["  x  "] is stored under ["x"]. *)
Theorem flag_stored_under_stripped_name :
  (forall (request : Request) (FLAGS : pydict),
      status_code (fst (dispatch (POST_flags request) FLAGS)) = 200%Z ->
      exists (d : pydict) (supplied stored : pyval),
        get_json_silent request = PDict d /\
        PyDict.lookup "name" d = Some supplied /\
        dispatch (POST_flags request) FLAGS
        = (Returned (ok_flag_response (strip (py_str supplied)) stored),
           PyDict.set (strip (py_str supplied)) stored FLAGS) /\
        PyDict.lookup (strip (py_str supplied))
          (snd (dispatch (POST_flags request) FLAGS)) = Some stored)
  /\
  (forall (v : pyval) (FLAGS : pydict),
      v <> PNone ->
      dispatch (post_flag (PInt 123) v) FLAGS
      = (Returned (ok_flag_response "123" v), PyDict.set "123" v FLAGS) /\
      dispatch (post_flag (PStr "  x  ") v) FLAGS
      = (Returned (ok_flag_response "x" v), PyDict.set "x" v FLAGS)).
Proof.
  split.
  - intros request FLAGS Hok. unfold dispatch in *.
    destruct (create_or_update_flag_cases request FLAGS)
      as [[_ Hno] | (d & stored & _ & Hp & Hn & _ & _ & Heq)]; [contradiction|].
    cbv zeta in Hn.
    destruct (PyDict.lookup "name" d) as [supplied|] eqn:Hl.
    + exists d, supplied, stored.
      rewrite (get_of_lookup _ _ _ _ Hl) in Heq.
      rewrite Heq. cbn [snd].
      split; [|split; [exact Hl | split; [reflexivity | apply lookup_set_same]]].
      unfold py_or in Hp.
      destruct (truthy (get_json_silent request)); [exact Hp|].
      injection Hp as <-. discriminate.
    + exfalso. apply Hn. unfold PyDict.get. now rewrite Hl.
  - intros v FLAGS Hv. unfold dispatch, post_flag. split.
    + now apply (create_or_update_flag_ordinary
                   [("name", PInt 123); ("value", v)] v FLAGS).
    + now apply (create_or_update_flag_ordinary
                   [("name", PStr "  x  "); ("value", v)] v FLAGS).
Qed.

Lemma flag_stored_under_stripped_name_witness :
  (exists (d : pydict) (supplied stored : pyval),
      get_json_silent (json_request (PDict [("name", PInt 123); ("value", PBool false)]))
      = PDict d /\
      PyDict.lookup "name" d = Some supplied /\
      dispatch (post_flag (PInt 123) (PBool false)) (startup [])
      = (Returned (ok_flag_response (strip (py_str supplied)) stored),
         PyDict.set (strip (py_str supplied)) stored (startup [])) /\
      PyDict.lookup (strip (py_str supplied))
        (snd (dispatch (post_flag (PInt 123) (PBool false)) (startup []))) = Some stored)
  /\
  dispatch (post_flag (PStr "  x  ") (PInt 7)) (startup [])
  = (Returned (ok_flag_response "x" (PInt 7)), PyDict.set "x" (PInt 7) (startup [])).
Proof.
  split.
  - apply (proj1 flag_stored_under_stripped_name
             (json_request (PDict [("name", PInt 123); ("value", PBool false)]))
             (startup [])).
    reflexivity.
  - apply (proj2 flag_stored_under_stripped_name (PInt 7) (startup [])).
    discriminate.
Defined.

(* ===================================================================== *)
(** ** Further behaviour of the service and of its client *)
(* ===================================================================== *)

Module StripFacts.

Import PyStr Observed.

Lemma isspace_lower_char (c : ascii) : isspace (lower_char c) = isspace c.
Proof. destruct c as [[] [] [] [] [] [] [] []]; reflexivity. Qed.

Lemma lstrip_lower (s : string) : lstrip (lower s) = lower (lstrip s).
Proof.
  induction s as [|c s IH]; simpl; [reflexivity|].
  rewrite isspace_lower_char. now destruct (isspace c).
Qed.

Lemma rstrip_lower (s : string) : rstrip (lower s) = lower (rstrip s).
Proof.
  induction s as [|c s IH]; simpl; [reflexivity|].
  rewrite IH, isspace_lower_char.
  destruct (rstrip s); simpl; [now destruct (isspace c) | reflexivity].
Qed.

(** Lower-casing and stripping can be done in either order. *)
Lemma strip_lower (s : string) : strip (lower s) = lower (strip s).
Proof. unfold strip. now rewrite lstrip_lower, rstrip_lower. Qed.

Lemma rstrip_empty (s : string) : rstrip s = "" <-> all_space s = true.
Proof.
  induction s as [|c s IH]; simpl; [easy|].
  rewrite andb_true_iff, <- IH.
  destruct (rstrip s); destruct (isspace c); intuition congruence.
Qed.

Lemma all_space_lstrip (s : string) : all_space (lstrip s) = all_space s.
Proof.
  induction s as [|c s IH]; simpl; [reflexivity|].
  destruct (isspace c) eqn:E; simpl; [exact IH | now rewrite E].
Qed.

(** [strip] leaves nothing exactly of the texts made of white space. *)
Lemma strip_empty (s : string) : strip s = "" <-> all_space s = true.
Proof. unfold strip. now rewrite rstrip_empty, all_space_lstrip. Qed.

(** A text that starts with a character that is no white space keeps it
    as its first character. *)
Lemma strip_head (c : ascii) (s : string) :
  isspace c = false -> exists r, strip (String c s) = String c r.
Proof.
  intros Hc. unfold strip. simpl lstrip. rewrite Hc. simpl rstrip.
  destruct (rstrip s); [rewrite Hc|]; eauto.
Qed.

Lemma contains_append_r (sub a b : string) :
  contains sub b = true -> contains sub (a ++ b) = true.
Proof.
  intros H. induction a as [|c a IH]; simpl; [exact H|].
  rewrite IH. apply orb_true_r.
Qed.

End StripFacts.

Module HandlerFacts.

Import PyStr PyVal App Contract Observed PyDictFacts AppFacts StripFacts.

Lemma prefix_append (x b : string) : String.prefix x (x ++ b) = true.
Proof.
  induction x as [|c x IH]; simpl; [now destruct b|].
  destruct (ascii_dec c c) as [_|N]; [exact IH | now elim N].
Qed.

Lemma contains_of_prefix (sub s : string) :
  String.prefix sub s = true -> contains sub s = true.
Proof. intros H. destruct s; simpl in *; now rewrite H. Qed.

Lemma contains_infix (a x b : string) : contains x (a ++ x ++ b) = true.
Proof. apply contains_append_r, contains_of_prefix, prefix_append. Qed.

Lemma mem_lookup (k : string) (d : pydict) :
  PyDict.mem k d = true <-> exists v, PyDict.lookup k d = Some v.
Proof.
  unfold PyDict.mem. destruct (PyDict.lookup k d); split; eauto; try easy.
  now intros [v Hv].
Qed.

(** Assignment keeps the keys in place and puts a new key last. *)
Lemma keys_set (k : string) (v : pyval) (d : pydict) :
  keys (PyDict.set k v d) = if PyDict.mem k d then keys d else (keys d ++ [k])%list.
Proof.
  unfold keys, PyDict.mem.
  induction d as [|[k' v'] d IH]; simpl; [reflexivity|].
  destruct (String.eqb k k') eqn:E; simpl.
  - apply String.eqb_eq in E. now subst.
  - rewrite IH. now destruct (PyDict.lookup k d).
Qed.

Lemma keys_set_extend (k : string) (v : pyval) (d : pydict) :
  exists added,
    keys (PyDict.set k v d) = (keys d ++ added)%list /\ (List.length added <= 1)%nat.
Proof.
  rewrite keys_set. destruct (PyDict.mem k d).
  - exists []. rewrite app_nil_r. split; [reflexivity | simpl; lia].
  - exists [k]. split; [reflexivity | simpl; lia].
Qed.

(** What a request can do to the store: nothing, or one assignment. *)
Lemma dispatch_store (r : HttpRequest) (FLAGS : pydict) :
  snd (dispatch r FLAGS) = FLAGS \/
  (is_post r = true /\
   status_code (fst (dispatch r FLAGS)) = 200%Z /\
   exists k v, snd (dispatch r FLAGS) = PyDict.set k v FLAGS).
Proof.
  destruct r as [| |name|request| |request|];
    try (left; apply reading_routes_keep_store; exact I).
  - simpl dispatch.
    destruct (create_or_update_flag_cases request FLAGS)
      as [[H _] | (d & stored & _ & _ & _ & _ & _ & Heq)]; [now left|].
    right. rewrite Heq. split; [reflexivity|]. split; [reflexivity|].
    cbn [snd]. eauto.
  - simpl dispatch.
    destruct (set_mode_cases request FLAGS) as [[H _] | (d & _ & _ & _ & Heq)];
      [now left|].
    right. rewrite Heq. split; [reflexivity|]. split; [reflexivity|].
    cbn [snd]. eauto.
Qed.

Lemma step_store (ev : event) (FLAGS : pydict) :
  step ev FLAGS = FLAGS \/ exists k v, step ev FLAGS = PyDict.set k v FLAGS.
Proof.
  destruct ev as [e | r]; simpl.
  - right. unfold _initialize_flags, assign. simpl. eauto.
  - destruct (dispatch_store r FLAGS) as [H | (_ & _ & H)]; auto.
Qed.

Lemma run_keys (evs : list event) (FLAGS : pydict) :
  exists added,
    keys (run evs FLAGS) = (keys FLAGS ++ added)%list /\
    (List.length added <= List.length evs)%nat.
Proof.
  revert FLAGS.
  induction evs as [|ev evs IH]; intros FLAGS.
  - exists []. rewrite app_nil_r. split; [reflexivity | simpl; lia].
  - change (run (ev :: evs) FLAGS) with (run evs (step ev FLAGS)).
    destruct (IH (step ev FLAGS)) as (added & Hk & Hl).
    rewrite Hk.
    destruct (step_store ev FLAGS) as [-> | (k & v & ->)].
    + exists added. split; [reflexivity | simpl; lia].
    + destruct (keys_set_extend k v FLAGS) as (one & -> & Hone).
      exists (one ++ added)%list. rewrite <- app_assoc. split; [reflexivity|].
      rewrite length_app. simpl. lia.
Qed.

Lemma mem_keys (k : string) (d : pydict) :
  PyDict.mem k d = true <-> In k (keys d).
Proof.
  unfold PyDict.mem, keys.
  induction d as [|[k' v'] d IH]; simpl; [easy|].
  destruct (String.eqb k k') eqn:E.
  - apply String.eqb_eq in E. subst. intuition.
  - apply String.eqb_neq in E. rewrite IH. intuition congruence.
Qed.


(** [str] of an integer, an array or an object begins with a digit, a
    minus sign or an opening bracket. *)
Lemma str_of_int_head (z : Z) :
  exists c r, str_of_int z = String c r /\ In c symbols.
Proof.
  unfold str_of_int, symbols.
  destruct (Z.to_int z) as [d | d]; simpl.
  - destruct d; simpl; eexists _, _; (split; [reflexivity|]); simpl; tauto.
  - eexists _, _. split; [reflexivity|]. simpl. tauto.
Qed.

Lemma py_str_head (v : pyval) :
  match v with PInt _ | PList _ | PDict _ => True | _ => False end ->
  exists c r, py_str v = String c r /\ In c symbols.
Proof.
  destruct v; try easy; intros _.
  - apply str_of_int_head.
  - simpl. eexists _, _. split; [reflexivity|]. simpl. tauto.
  - simpl. eexists _, _. split; [reflexivity|]. simpl. tauto.
Qed.

Lemma symbols_plain (c : ascii) :
  In c symbols ->
  isspace c = false /\ lower_char c = c /\ c <> "e"%char /\
  c <> "t"%char /\ c <> "p"%char.
Proof.
  unfold symbols. simpl.
  intros H.
  repeat (destruct H as [<- | H]; [repeat split; discriminate|]).
  contradiction.
Qed.

(** [str] of a value that is not text, stripped, is not empty and is not
    the reserved key. *)
Lemma not_text_key (v : pyval) :
  not_text v = true ->
  strip (py_str v) <> "" /\ strip (py_str v) <> ENVIRONMENT_FLAG_NAME.
Proof.
  intros Hv.
  destruct v as [|b|z| | |l|d]; try discriminate.
  - split; discriminate.
  - destruct b; split; discriminate.
  - destruct (py_str_head (PInt z) I) as (c & r & -> & Hc).
    destruct (symbols_plain c Hc) as (Hs & _ & He & _).
    destruct (strip_head c r Hs) as [r' ->].
    split; [discriminate|]. unfold ENVIRONMENT_FLAG_NAME. congruence.
  - destruct (py_str_head (PList l) I) as (c & r & -> & Hc).
    destruct (symbols_plain c Hc) as (Hs & _ & He & _).
    destruct (strip_head c r Hs) as [r' ->].
    split; [discriminate|]. unfold ENVIRONMENT_FLAG_NAME. congruence.
  - destruct (py_str_head (PDict d) I) as (c & r & -> & Hc).
    destruct (symbols_plain c Hc) as (Hs & _ & He & _).
    destruct (strip_head c r Hs) as [r' ->].
    split; [discriminate|]. unfold ENVIRONMENT_FLAG_NAME. congruence.
Qed.

(** The same text, lower-cased and stripped, is no mode. *)
Lemma not_text_mode (v : pyval) :
  not_text v = true -> in_ALLOWED_MODES (strip (lower (py_str v))) = false.
Proof.
  intros Hv. apply in_ALLOWED_MODES_false.
  destruct v as [|b|z| | |l|d]; try discriminate.
  - split; discriminate.
  - destruct b; split; discriminate.
  - destruct (py_str_head (PInt z) I) as (c & r & -> & Hc).
    destruct (symbols_plain c Hc) as (Hs & Hl & _ & Ht & Hp).
    simpl lower. rewrite Hl.
    destruct (strip_head c (lower r) Hs) as [r' ->].
    split; congruence.
  - destruct (py_str_head (PList l) I) as (c & r & -> & Hc).
    destruct (symbols_plain c Hc) as (Hs & Hl & _ & Ht & Hp).
    simpl lower. rewrite Hl.
    destruct (strip_head c (lower r) Hs) as [r' ->].
    split; congruence.
  - destruct (py_str_head (PDict d) I) as (c & r & -> & Hc).
    destruct (symbols_plain c Hc) as (Hs & Hl & _ & Ht & Hp).
    simpl lower. rewrite Hl.
    destruct (strip_head c (lower r) Hs) as [r' ->].
    split; congruence.
Qed.

(** What [or {}] makes of the parsed body. *)
Lemma payload_cases (request : Request) :
  is_json request = true ->
  (exists d, py_or (get_json_silent request) (PDict []) = PDict d) \/
  (exists v, parsed_body request = Some v /\ truthy_non_object v = true /\
             py_or (get_json_silent request) (PDict []) = v).
Proof.
  intros Hj. unfold get_json_silent, py_or, truthy_non_object. rewrite Hj.
  destruct (parsed_body request) as [v|]; [|left; now exists []].
  destruct (truthy v) eqn:Ht; [|left; now exists []].
  destruct v;
    try (right; eexists; split; [reflexivity|]; split; [now rewrite Ht | reflexivity]).
  left. eauto.
Qed.

Lemma truthy_non_object_not_dict (v : pyval) :
  truthy_non_object v = true ->
  match v with PDict _ => False | _ => True end.
Proof.
  unfold truthy_non_object. destruct v; try easy.
  now rewrite andb_false_r.
Qed.

Lemma payload_get_raises (v : pyval) (key : string) (dflt : pyval) (FLAGS : pydict) :
  match v with PDict _ => False | _ => True end ->
  payload_get v key dflt FLAGS = (Raised AttributeError, FLAGS).
Proof. destruct v; easy. Qed.

(** The uncaught exception of the two writing handlers. *)
Lemma create_or_update_flag_raises (request : Request) (FLAGS : pydict) :
  fst (create_or_update_flag request FLAGS) = Raised AttributeError <->
  is_json request = true /\
  exists v, parsed_body request = Some v /\ truthy_non_object v = true.
Proof.
  split.
  - intros Hr.
    destruct (create_or_update_flag_cases request FLAGS)
      as [[_ _] | (d & stored & _ & _ & _ & _ & _ & Heq)];
      [|rewrite Heq in Hr; discriminate].
    unfold create_or_update_flag in Hr.
    destruct (is_json request) eqn:Hj; [|discriminate].
    split; [reflexivity|].
    destruct (payload_cases request Hj) as [[d Hd] | (v & Hv & Ht & _)]; [|eauto].
    rewrite Hd in Hr. cbn [negb payload_get bind ret] in Hr.
    repeat match type of Hr with
           | context [if ?b then _ else _] => destruct b
           end; discriminate.
  - intros (Hj & v & Hv & Ht).
    unfold create_or_update_flag. rewrite Hj. cbn [negb].
    assert (Hp : py_or (get_json_silent request) (PDict []) = v).
    { unfold get_json_silent, py_or. rewrite Hj, Hv.
      unfold truthy_non_object in Ht. apply andb_true_iff in Ht. now rewrite (proj1 Ht). }
    rewrite Hp. unfold bind.
    now rewrite (payload_get_raises v _ _ FLAGS (truthy_non_object_not_dict v Ht)).
Qed.

Lemma set_mode_raises (request : Request) (FLAGS : pydict) :
  fst (set_mode request FLAGS) = Raised AttributeError <->
  is_json request = true /\
  exists v, parsed_body request = Some v /\ truthy_non_object v = true.
Proof.
  split.
  - intros Hr.
    unfold set_mode in Hr.
    destruct (is_json request) eqn:Hj; [|discriminate].
    split; [reflexivity|].
    destruct (payload_cases request Hj) as [[d Hd] | (v & Hv & Ht & _)]; [|eauto].
    rewrite Hd in Hr. cbn [negb payload_get bind ret] in Hr.
    repeat match type of Hr with
           | context [if ?b then _ else _] => destruct b
           end; discriminate.
  - intros (Hj & v & Hv & Ht).
    unfold set_mode. rewrite Hj. cbn [negb].
    assert (Hp : py_or (get_json_silent request) (PDict []) = v).
    { unfold get_json_silent, py_or. rewrite Hj, Hv.
      unfold truthy_non_object in Ht. apply andb_true_iff in Ht. now rewrite (proj1 Ht). }
    rewrite Hp. unfold bind.
    now rewrite (payload_get_raises v _ _ FLAGS (truthy_non_object_not_dict v Ht)).
Qed.

End HandlerFacts.

Import Observed StripFacts HandlerFacts.

(** *** Reading *)

(** X1. [GET /flags/{name}] never changes the store.  When the name is a
    key of the store the reply is 200 and carries the stored value; when it
    is not, the reply is 404 and its message contains ["not found"] and the
    name that was asked for. *)
Theorem get_single_flag_found_or_404 :
  forall (name : string) (FLAGS : pydict),
    snd (dispatch (GET_flags_name name) FLAGS) = FLAGS /\
    match PyDict.lookup name FLAGS with
    | Some v =>
        fst (dispatch (GET_flags_name name) FLAGS)
        = Returned (ok_flag_response name v)
    | None =>
        status_code (fst (dispatch (GET_flags_name name) FLAGS)) = 404%Z /\
        field "status" (fst (dispatch (GET_flags_name name) FLAGS))
        = Some (PStr "error") /\
        contains "not found" (message (fst (dispatch (GET_flags_name name) FLAGS)))
        = true /\
        contains name (message (fst (dispatch (GET_flags_name name) FLAGS)))
        = true
    end.
Proof.
  intros name FLAGS.
  split; [now apply reading_routes_keep_store|].
  unfold dispatch.
  destruct (PyDict.lookup name FLAGS) as [v|] eqn:Hl.
  - now rewrite (get_single_flag_present name v FLAGS Hl).
  - unfold get_single_flag, bind, reads, ret, PyDict.mem. rewrite Hl.
    cbn [negb fst status_code status error_response field message body jsonify
         PyDict.lookup String.eqb Ascii.eqb Bool.eqb].
    split; [reflexivity|]. split; [reflexivity|]. split.
    + change (contains "not found" ("flag '" ++ name ++ "' not found") = true).
      apply contains_append_r, contains_append_r. reflexivity.
    + change (contains name ("flag '" ++ name ++ "' not found") = true).
      apply contains_infix.
Qed.

(** *** What changes the store, and what does not *)

(** X2. Only a write that is answered 200 changes the store: the reading
    routes and unmatched requests leave it as it is, and so does every
    request answered with another code, the one that ends in an uncaught
    exception included. *)
Theorem store_changes_only_on_successful_post :
  forall (r : HttpRequest) (FLAGS : pydict),
    (is_post r = false -> snd (dispatch r FLAGS) = FLAGS) /\
    (status_code (fst (dispatch r FLAGS)) <> 200%Z -> snd (dispatch r FLAGS) = FLAGS).
Proof.
  intros r FLAGS.
  destruct (dispatch_store r FLAGS) as [H | (Hp & Hs & _)].
  - now split.
  - split; [rewrite Hp; discriminate | intros Hn; contradiction].
Qed.

Lemma store_changes_only_on_successful_post_witness :
  snd (dispatch GET_flags [("beta", PBool true)]) = [("beta", PBool true)] /\
  snd (dispatch (post_flag (PStr "environment_mode") (PStr "staging")) (startup []))
  = startup [] /\
  snd (dispatch (POST_mode (json_request (PList [PStr "production"]))) (startup []))
  = startup [].
Proof.
  split; [|split].
  - apply (proj1 (store_changes_only_on_successful_post GET_flags [("beta", PBool true)])).
    reflexivity.
  - apply (proj2 (store_changes_only_on_successful_post
                    (post_flag (PStr "environment_mode") (PStr "staging")) (startup []))).
    discriminate.
  - apply (proj2 (store_changes_only_on_successful_post
                    (POST_mode (json_request (PList [PStr "production"]))) (startup []))).
    discriminate.
Defined.

(** X3. The two writing handlers raise an uncaught [AttributeError]
    exactly when the request has a JSON content type and its body parses to
    something true that is not an object, such as a non-empty array, a
    non-empty text, [true] or a non-zero number: [or {}] keeps such a body
    and [.get] is then called on it.  The store is as it was when that
    happens. *)
Theorem uncaught_exception_iff_truthy_non_object_body :
  forall (request : Request) (FLAGS : pydict),
    let bad :=
      is_json request = true /\
      exists v : pyval,
        parsed_body request = Some v /\ truthy_non_object v = true in
    (fst (create_or_update_flag request FLAGS) = Raised AttributeError <-> bad) /\
    (fst (set_mode request FLAGS) = Raised AttributeError <-> bad) /\
    (bad ->
     create_or_update_flag request FLAGS = (Raised AttributeError, FLAGS) /\
     set_mode request FLAGS = (Raised AttributeError, FLAGS)).
Proof.
  intros request FLAGS bad. subst bad.
  split; [apply create_or_update_flag_raises|].
  split; [apply set_mode_raises|].
  intros Hbad.
  pose proof (proj2 (create_or_update_flag_raises request FLAGS) Hbad) as Hc.
  pose proof (proj2 (set_mode_raises request FLAGS) Hbad) as Hm.
  split.
  - destruct (create_or_update_flag_cases request FLAGS)
      as [[Hs _] | (d & stored & _ & _ & _ & _ & _ & Heq)].
    + destruct (create_or_update_flag request FLAGS) as [o st].
      simpl in *. now subst.
    + rewrite Heq in Hc. discriminate.
  - destruct (set_mode_cases request FLAGS) as [[Hs _] | (d & _ & _ & _ & Heq)].
    + destruct (set_mode request FLAGS) as [o st]. simpl in *. now subst.
    + rewrite Heq in Hm. discriminate.
Qed.

Lemma uncaught_exception_iff_truthy_non_object_body_witness :
  fst (create_or_update_flag (json_request (PList [PInt 1])) (startup []))
  = Raised AttributeError /\
  set_mode (json_request (PStr "production")) (startup [])
  = (Raised AttributeError, startup []).
Proof.
  split.
  - apply (proj1 (uncaught_exception_iff_truthy_non_object_body
                    (json_request (PList [PInt 1])) (startup []))).
    split; [reflexivity|]. exists (PList [PInt 1]). split; reflexivity.
  - apply (proj2 (proj2 (uncaught_exception_iff_truthy_non_object_body
                           (json_request (PStr "production")) (startup [])))).
    split; [reflexivity|]. exists (PStr "production"). split; reflexivity.
Defined.

(** X4. No event removes or reorders flags: after any sequence of requests
    and initializations the keys of the store are the keys it had, in the
    order they had, followed by the keys added since, at most one for each
    event. *)
Theorem flags_are_never_removed_or_reordered :
  forall (evs : list event) (FLAGS : pydict),
    exists added : list string,
      keys (run evs FLAGS) = (keys FLAGS ++ added)%list /\
      (List.length added <= List.length evs)%nat.
Proof. intros evs FLAGS. apply run_keys. Qed.

(** X5. A flag whose name is one path segment (not empty, no slash), once
    present, answers 200 on [GET /flags/{name}] after any further sequence
    of requests and initializations. *)
Theorem present_flag_stays_readable :
  forall (name : string) (evs : list event) (FLAGS : pydict),
    is_segment name = true ->
    PyDict.mem name FLAGS = true ->
    status_code (fst (dispatch (GET ("/flags/" ++ name)) (run evs FLAGS))) = 200%Z.
Proof.
  intros name evs FLAGS Hseg Hm.
  assert (Hrun : PyDict.mem name (run evs FLAGS) = true).
  { apply mem_keys. destruct (run_keys evs FLAGS) as (added & -> & _).
    apply in_or_app. left. now apply mem_keys. }
  apply mem_lookup in Hrun. destruct Hrun as [v Hv].
  rewrite (GET_flags_segment name Hseg).
  unfold dispatch. now rewrite (get_single_flag_present name v _ Hv).
Qed.

Lemma present_flag_stays_readable_witness :
  status_code
    (fst (dispatch (GET "/flags/beta")
            (run [Serve (post_mode (PStr "production")); Initialize [];
                  Serve (post_flag (PStr "gamma") (PInt 3))]
               [("beta", PBool true)]))) = 200%Z.
Proof.
  apply (present_flag_stays_readable "beta"
           [Serve (post_mode (PStr "production")); Initialize [];
            Serve (post_flag (PStr "gamma") (PInt 3))]
           [("beta", PBool true)]);
    reflexivity.
Defined.

(** X6. The reply to a successful [POST /flags] tells what a reader will
    get: whatever the body was, the store then maps the name of the reply
    to the value of the reply and [GET /flags] lists it so; and when that
    name is one path segment (not empty, no slash), [GET /flags/{name}]
    returns the reply's name and value. *)
Theorem successful_post_is_read_back :
  forall (request : Request) (FLAGS : pydict) (reply : Response),
    fst (dispatch (POST_flags request) FLAGS) = Returned reply ->
    status reply = 200%Z ->
    exists (name : string) (value : pyval) (listing : pydict),
      reply = ok_flag_response name value /\
      PyDict.lookup name (snd (dispatch (POST_flags request) FLAGS)) = Some value /\
      field "flags" (fst (dispatch (GET "/flags") (snd (dispatch (POST_flags request) FLAGS))))
      = Some (PDict listing) /\
      PyDict.lookup name listing = Some value /\
      (is_segment name = true ->
       fst (dispatch (GET ("/flags/" ++ name))
              (snd (dispatch (POST_flags request) FLAGS)))
       = Returned reply).
Proof.
  intros request FLAGS reply Hr Hs.
  change (dispatch (POST_flags request) FLAGS)
    with (create_or_update_flag request FLAGS) in *.
  destruct (create_or_update_flag_cases request FLAGS)
    as [[_ Hno] | (d & stored & _ & _ & _ & _ & _ & Heq)].
  - rewrite Hr in Hno. simpl in Hno. contradiction.
  - rewrite Heq in *. cbn [fst snd] in *. injection Hr as <-.
    eexists _, stored, _.
    split; [reflexivity|].
    split; [apply lookup_set_same|].
    split; [reflexivity|].
    split; [apply lookup_set_same|].
    intros Hseg. rewrite (GET_flags_segment _ Hseg). unfold dispatch.
    now rewrite (get_single_flag_present _ stored _ (lookup_set_same _ _ _)).
Qed.

Lemma successful_post_is_read_back_witness :
  exists (name : string) (value : pyval),
    ok_flag_response "environment_mode" (PStr "production")
    = ok_flag_response name value /\
    (is_segment name = true ->
     fst (dispatch (GET ("/flags/" ++ name))
            (snd (dispatch (post_flag (PStr " environment_mode ") (PStr "PRODUCTION"))
                    (startup []))))
     = Returned (ok_flag_response "environment_mode" (PStr "production"))).
Proof.
  destruct (successful_post_is_read_back
              (json_request (PDict [("name", PStr " environment_mode ");
                                    ("value", PStr "PRODUCTION")]))
              (startup [])
              (ok_flag_response "environment_mode" (PStr "production"))
              eq_refl eq_refl)
    as (name & value & listing & Hreply & _ & _ & _ & Hget).
  exists name, value. split; [exact Hreply | exact Hget].
Defined.

(** *** The reserved key through [POST /flags] *)

(** X7. A [POST /flags] whose name strips to ["environment_mode"], with a
    value that is not null, is decided by [str] of the value in lower case.
    When that is an allowed mode, the reply is 200, the mode is stored and
    echoed in lower case, and the store is the one [POST /mode] with the
    same value leaves.  When it is not, the reply is 400, its message
    contains ["environment_mode"] and the store is unchanged. *)
Theorem environment_mode_through_post_flags :
  forall (n : string) (v : pyval) (FLAGS : pydict),
    strip n = ENVIRONMENT_FLAG_NAME -> v <> PNone ->
    let posted := dispatch (post_flag (PStr n) v) FLAGS in
    let mode := lower (py_str v) in
    (in_ALLOWED_MODES mode = true ->
     posted = (Returned (ok_flag_response ENVIRONMENT_FLAG_NAME (PStr mode)),
               PyDict.set ENVIRONMENT_FLAG_NAME (PStr mode) FLAGS) /\
     snd (dispatch (post_mode v) FLAGS) = snd posted)
    /\
    (in_ALLOWED_MODES mode = false ->
     status_code (fst posted) = 400%Z /\
     contains "environment_mode" (message (fst posted)) = true /\
     snd posted = FLAGS).
Proof.
  intros n v FLAGS Hn Hv posted mode. subst posted.
  unfold dispatch, post_flag, post_mode.
  rewrite create_or_update_flag_object, set_mode_object. cbv zeta.
  change (py_str (PyDict.get "name" (PStr "") [("name", PStr n); ("value", v)]))
    with n.
  change (PyDict.get "value" PNone [("name", PStr n); ("value", v)]) with v.
  change (PyDict.get "mode" (PStr "") [("mode", v)]) with v.
  fold mode. rewrite Hn.
  assert (Hnone : is_none v = false) by (destruct v; [contradiction | reflexivity ..]).
  rewrite Hnone.
  change (String.eqb ENVIRONMENT_FLAG_NAME "") with false.
  change (String.eqb ENVIRONMENT_FLAG_NAME ENVIRONMENT_FLAG_NAME) with true.
  cbv iota.
  split; intros Ha; rewrite Ha.
  - split; [reflexivity|].
    apply in_ALLOWED_MODES_iff in Ha.
    assert (Hs : strip mode = mode) by (destruct Ha as [-> | ->]; reflexivity).
    rewrite Hs.
    assert (Ha' : in_ALLOWED_MODES mode = true) by now apply in_ALLOWED_MODES_iff.
    now rewrite Ha'.
  - repeat split.
Qed.

Lemma environment_mode_through_post_flags_witness :
  dispatch (post_flag (PStr " environment_mode ") (PStr "Production")) (startup [])
  = (Returned (ok_flag_response "environment_mode" (PStr "production")),
     PyDict.set "environment_mode" (PStr "production") (startup []))
  /\
  snd (dispatch (post_flag (PStr "environment_mode") (PStr "invalid_mode")) (startup []))
  = startup [].
Proof.
  split.
  - apply (proj1 (environment_mode_through_post_flags
                    " environment_mode " (PStr "Production") (startup [])
                    eq_refl ltac:(discriminate))).
    reflexivity.
  - apply (proj2 (environment_mode_through_post_flags
                    "environment_mode" (PStr "invalid_mode") (startup [])
                    eq_refl ltac:(discriminate))).
    reflexivity.
Defined.

(** *** The name check *)

(** X8. On a [POST /flags] whose body is an object, the name check refuses
    a missing name and, among the names that are text, exactly those made
    of white space only (the empty one included); the refusal is a 400
    whose message contains ["name"]. *)
Theorem name_check_refuses_missing_and_blank_names :
  forall (d : pydict) (FLAGS : pydict),
    let posted := dispatch (POST_flags (json_request (PDict d))) FLAGS in
    let refusal :=
      Returned (error_response "flag 'name' must be a non-empty string" 400) in
    contains "name" (message refusal) = true /\
    (PyDict.lookup "name" d = None -> fst posted = refusal) /\
    (forall s : string,
        PyDict.lookup "name" d = Some (PStr s) ->
        (fst posted = refusal <-> all_space s = true)).
Proof.
  intros d FLAGS posted refusal. subst posted refusal.
  split; [reflexivity|].
  unfold dispatch. rewrite create_or_update_flag_object. cbv zeta.
  split.
  - intros Hl. unfold PyDict.get at 1. rewrite Hl. reflexivity.
  - intros s Hl. rewrite (get_of_lookup _ _ (PStr "") _ Hl).
    change (py_str (PStr s)) with s.
    rewrite <- strip_empty.
    destruct (String.eqb (strip s) "") eqn:He.
    + apply String.eqb_eq in He. now split.
    + apply String.eqb_neq in He. split; [|intros E; contradiction].
      intros Hr. exfalso.
      repeat match type of Hr with
             | context [if ?b then _ else _] => destruct b
             end; discriminate.
Qed.

Lemma name_check_refuses_missing_and_blank_names_witness :
  fst (dispatch (POST_flags (json_request (PDict [("value", PBool true)]))) (startup []))
  = Returned (error_response "flag 'name' must be a non-empty string" 400)
  /\
  fst (dispatch (post_flag (PStr "   ") (PBool true)) (startup []))
  = Returned (error_response "flag 'name' must be a non-empty string" 400).
Proof.
  split.
  - apply (proj1 (proj2 (name_check_refuses_missing_and_blank_names
                           [("value", PBool true)] (startup [])))).
    reflexivity.
  - apply (proj2 (proj2 (name_check_refuses_missing_and_blank_names
                           [("name", PStr "   "); ("value", PBool true)] (startup [])))
             "   " eq_refl).
    reflexivity.
Defined.

(** X9. A name that is not text is not refused: null, a boolean, an
    integer, an array or an object given as the name is turned into its
    [str], and with a value that is not null the write is answered 200 and
    stored under that text; a null name is stored under ["None"] and the
    booleans under ["True"] and ["False"]. *)
Theorem non_text_names_are_accepted :
  forall (name value : pyval) (FLAGS : pydict),
    not_text name = true -> value <> PNone ->
    strip (py_str name) <> "" /\
    dispatch (post_flag name value) FLAGS
    = (Returned (ok_flag_response (strip (py_str name)) value),
       PyDict.set (strip (py_str name)) value FLAGS) /\
    (name = PNone -> strip (py_str name) = "None") /\
    (name = PBool true -> strip (py_str name) = "True") /\
    (name = PBool false -> strip (py_str name) = "False").
Proof.
  intros name value FLAGS Hn Hv.
  destruct (not_text_key name Hn) as [Hne Hnr].
  split; [exact Hne|]. split.
  - unfold dispatch, post_flag.
    now apply (create_or_update_flag_ordinary [("name", name); ("value", value)]).
  - repeat split; intros ->; reflexivity.
Qed.

Lemma non_text_names_are_accepted_witness :
  dispatch (post_flag PNone (PInt 1)) (startup [])
  = (Returned (ok_flag_response "None" (PInt 1)),
     PyDict.set "None" (PInt 1) (startup [])).
Proof.
  destruct (non_text_names_are_accepted PNone (PInt 1) (startup []) eq_refl
              ltac:(discriminate)) as (_ & H & _).
  exact H.
Defined.

(** *** The mode routes *)

(** X10. [GET /mode] and [GET /health] are answered 200 and report the
    same mode in every store, also in one that lacks the key: there both
    report ["test"], while [GET /flags/environment_mode] is answered 404. *)
Theorem mode_and_health_agree_in_every_store :
  forall (FLAGS : pydict),
    status_code (fst (dispatch GET_mode FLAGS)) = 200%Z /\
    status_code (fst (dispatch GET_health FLAGS)) = 200%Z /\
    field "mode" (fst (dispatch GET_health FLAGS))
    = field "mode" (fst (dispatch GET_mode FLAGS)) /\
    field "service" (fst (dispatch GET_health FLAGS)) = Some (PStr "feature-flag") /\
    (PyDict.lookup ENVIRONMENT_FLAG_NAME FLAGS = None ->
     field "mode" (fst (dispatch GET_mode FLAGS)) = Some (PStr "test") /\
     status_code (fst (dispatch (GET_flags_name ENVIRONMENT_FLAG_NAME) FLAGS)) = 404%Z).
Proof.
  intros FLAGS. unfold dispatch.
  split; [reflexivity|]. split; [reflexivity|]. split; [reflexivity|].
  split; [reflexivity|].
  intros Hl. split.
  - unfold get_mode, bind, reads, ret, PyDict.get. rewrite Hl. reflexivity.
  - unfold get_single_flag, bind, reads, ret, PyDict.mem. rewrite Hl. reflexivity.
Qed.

Lemma mode_and_health_agree_in_every_store_witness :
  field "mode" (fst (dispatch GET_mode [("beta", PBool true)])) = Some (PStr "test") /\
  status_code
    (fst (dispatch (GET_flags_name ENVIRONMENT_FLAG_NAME) [("beta", PBool true)]))
  = 404%Z.
Proof.
  apply (proj2 (proj2 (proj2 (proj2
           (mode_and_health_agree_in_every_store [("beta", PBool true)]))))).
  reflexivity.
Defined.

(** X11. [POST /mode] takes the mode up to case and surrounding white
    space: a text whose stripped form matches ["test"] or ["production"]
    letter by letter, whatever the case, is answered 200 and that mode is
    stored in lower case; a text is accepted in no other case. *)
Theorem set_mode_accepts_up_to_case_and_padding :
  forall (s : string) (FLAGS : pydict),
    let posted := dispatch (post_mode (PStr s)) FLAGS in
    (forall m : string,
        m = "test" \/ m = "production" ->
        caseless_eqb (strip s) m = true ->
        posted = (Returned (ok_mode_response m),
                  PyDict.set ENVIRONMENT_FLAG_NAME (PStr m) FLAGS))
    /\
    (status_code (fst posted) = 200%Z ->
     caseless_eqb (strip s) "test" = true \/
     caseless_eqb (strip s) "production" = true).
Proof.
  intros s FLAGS posted. subst posted.
  unfold dispatch, post_mode. rewrite set_mode_object. cbv zeta.
  change (py_str (PyDict.get "mode" (PStr "") [("mode", PStr s)])) with s.
  rewrite strip_lower.
  split.
  - intros m Hm Hc. apply caseless_eqb_lower in Hc.
    assert (Hl : lower m = m) by (destruct Hm as [-> | ->]; reflexivity).
    rewrite Hc, Hl.
    assert (Ha : in_ALLOWED_MODES m = true) by now apply in_ALLOWED_MODES_iff.
    now rewrite Ha.
  - destruct (in_ALLOWED_MODES (lower (strip s))) eqn:Ha; [|discriminate].
    intros _. apply in_ALLOWED_MODES_iff in Ha.
    rewrite !caseless_eqb_lower. exact Ha.
Qed.

Lemma set_mode_accepts_up_to_case_and_padding_witness :
  dispatch (post_mode (PStr "  PRODuction ")) (startup [])
  = (Returned (ok_mode_response "production"),
     PyDict.set ENVIRONMENT_FLAG_NAME (PStr "production") (startup [])).
Proof.
  apply (proj1 (set_mode_accepts_up_to_case_and_padding "  PRODuction " (startup []))
           "production").
  - right. reflexivity.
  - reflexivity.
Defined.

(** X12. [POST /mode] refuses every mode that is not text: with null, a
    boolean, an integer, an array or an object as the mode, and with the
    field missing, the reply is 400 and the store is unchanged. *)
Theorem set_mode_refuses_non_text_modes :
  forall (d : pydict) (FLAGS : pydict),
    (PyDict.lookup "mode" d = None \/
     exists mode, PyDict.lookup "mode" d = Some mode /\ not_text mode = true) ->
    dispatch (POST_mode (json_request (PDict d))) FLAGS
    = (Returned (error_response "invalid mode; must be 'test' or 'production'" 400),
       FLAGS).
Proof.
  intros d FLAGS H. unfold dispatch. rewrite set_mode_object. cbv zeta.
  destruct H as [Hl | (mode & Hl & Hn)].
  - unfold PyDict.get. rewrite Hl. reflexivity.
  - rewrite (get_of_lookup _ _ (PStr "") _ Hl).
    now rewrite (not_text_mode mode Hn).
Qed.

Lemma set_mode_refuses_non_text_modes_witness :
  dispatch (post_mode (PBool true)) (startup [])
  = (Returned (error_response "invalid mode; must be 'test' or 'production'" 400),
     startup [])
  /\
  dispatch (POST_mode (json_request (PDict [("Mode", PStr "test")]))) (startup [])
  = (Returned (error_response "invalid mode; must be 'test' or 'production'" 400),
     startup []).
Proof.
  split.
  - apply (set_mode_refuses_non_text_modes [("mode", PBool true)] (startup [])).
    right. exists (PBool true). split; reflexivity.
  - apply (set_mode_refuses_non_text_modes [("Mode", PStr "test")] (startup [])).
    left. reflexivity.
Defined.

(** *** The shape of the replies *)

(** X13. Every reply a handler returns has a [status] field, and it has a
    [message] field exactly when it reports an error: with code 200 the
    status is ["ok"] and there is no message; otherwise the code is 400 or
    404, the status is ["error"], the message is a text, and the body has
    these two fields only. *)
Theorem replies_share_one_envelope :
  forall (r : HttpRequest) (FLAGS : pydict) (reply : Response),
    fst (dispatch r FLAGS) = Returned reply ->
    (status reply = 200%Z /\
     PyDict.lookup "status" (body reply) = Some (PStr "ok") /\
     PyDict.lookup "message" (body reply) = None)
    \/
    ((status reply = 400%Z \/ status reply = 404%Z) /\
     PyDict.lookup "status" (body reply) = Some (PStr "error") /\
     (exists m, PyDict.lookup "message" (body reply) = Some (PStr m)) /\
     List.length (body reply) = 2%nat).
Proof.
  intros r FLAGS reply.
  assert (Herr : forall (m : string) (code : Z),
             code = 400%Z \/ code = 404%Z ->
             (status (error_response m code) = 400%Z \/
              status (error_response m code) = 404%Z) /\
             PyDict.lookup "status" (body (error_response m code))
             = Some (PStr "error") /\
             (exists m', PyDict.lookup "message" (body (error_response m code))
                         = Some (PStr m')) /\
             List.length (body (error_response m code)) = 2%nat).
  { intros m code Hc. split; [exact Hc|]. split; [reflexivity|].
    split; [now exists m | reflexivity]. }
  destruct r as [| |name|request| |request|]; simpl dispatch.
  - intros [= <-]. left. repeat split.
  - intros [= <-]. left. repeat split.
  - unfold get_single_flag, bind, reads, ret.
    destruct (negb (PyDict.mem name FLAGS)); intros [= <-].
    + right. apply Herr. now right.
    + left. repeat split.
  - unfold create_or_update_flag.
    destruct (is_json request); cbn [negb].
    + destruct (py_or (get_json_silent request) (PDict [])); try discriminate.
      cbn [payload_get]. unfold bind, ret, assign.
      repeat match goal with
             | |- context [if ?b then _ else _] => destruct b
             end;
        intros [= <-];
        first [ left; repeat split; fail
              | right; apply Herr; now left ].
    + intros [= <-]. right. apply Herr. now left.
  - intros [= <-]. left. repeat split.
  - unfold set_mode.
    destruct (is_json request); cbn [negb].
    + destruct (py_or (get_json_silent request) (PDict [])); try discriminate.
      cbn [payload_get]. unfold bind, ret, assign.
      repeat match goal with
             | |- context [if ?b then _ else _] => destruct b
             end;
        intros [= <-];
        first [ left; repeat split; fail
              | right; apply Herr; now left ].
    + intros [= <-]. right. apply Herr. now left.
  - intros [= <-]. right. apply Herr. now right.
Qed.

Lemma replies_share_one_envelope_witness :
  (status (error_response "endpoint not found" 404) = 200%Z /\
   PyDict.lookup "status" (body (error_response "endpoint not found" 404))
   = Some (PStr "ok") /\
   PyDict.lookup "message" (body (error_response "endpoint not found" 404)) = None)
  \/
  ((status (error_response "endpoint not found" 404) = 400%Z \/
    status (error_response "endpoint not found" 404) = 404%Z) /\
   PyDict.lookup "status" (body (error_response "endpoint not found" 404))
   = Some (PStr "error") /\
   (exists m,
       PyDict.lookup "message" (body (error_response "endpoint not found" 404))
       = Some (PStr m)) /\
   List.length (body (error_response "endpoint not found" 404)) = 2%nat).
Proof.
  apply (replies_share_one_envelope Unmatched (startup [])
           (error_response "endpoint not found" 404)).
  reflexivity.
Defined.

(** *** The client helper *)

(** X14. [get_current_mode] fails safe.  Whatever its request comes to, it
    returns ["test"] or ["production"]; and it returns ["production"] only
    when the request got a reply whose code is no error code, whose body
    decodes to an object, and whose [mode] field reads ["production"] in
    lower case.  A failed request, an error code, a body that is no JSON
    object and any other mode all give ["test"]. *)
Theorem client_fails_safe_to_test :
  forall (r : Client.http_result),
    (Client.get_current_mode r = "test" \/ Client.get_current_mode r = "production")
    /\
    (Client.get_current_mode r = "production" <->
     exists (code : Z) (data : pydict),
       r = Client.HttpReply code (Some (PDict data)) /\
       Client.ok code = true /\
       lower (py_str (PyDict.get "mode" (PStr "") data)) = "production").
Proof.
  intros r. unfold Client.get_current_mode, Client.try_block.
  destruct r as [|code [v|]]; try (split; [now left|]; split; [discriminate|]).
  - intros (c & d & [=] & _).
  - destruct (Client.ok code) eqn:Hok; cbn [negb].
    + destruct v as [| | | | | |data];
        try (split; [now left|]; split; [discriminate | intros (c & d & [=] & _)]).
      destruct (Client.in_ALLOWED_MODES
                  (lower (py_str (PyDict.get "mode" (PStr "") data)))) eqn:Ha.
      * assert (Hm : lower (py_str (PyDict.get "mode" (PStr "") data)) = "test" \/
                     lower (py_str (PyDict.get "mode" (PStr "") data)) = "production")
          by now apply in_ALLOWED_MODES_iff.
        split; [exact Hm|]. split.
        -- intros E. now exists code, data.
        -- now intros (c & d & [= <- <-] & _ & E).
      * split; [now left|]. split; [discriminate|].
        intros (c & d & [= <- <-] & _ & E).
        rewrite E in Ha. discriminate.
    + split; [now left|]. split; [discriminate|].
      intros (c & d & [= <- _] & Hc & _). rewrite Hc in Hok. discriminate.
  - destruct (Client.ok code); cbn [negb]; split; try (now left);
      (split; [discriminate | intros (c & d & [=] & _)]).
Qed.

Lemma client_fails_safe_to_test_witness :
  Client.get_current_mode
    (Client.HttpReply 200
       (Some (PDict [("status", PStr "ok"); ("mode", PStr "Production")])))
  = "production".
Proof.
  apply (proj2 (client_fails_safe_to_test
                  (Client.HttpReply 200
                     (Some (PDict [("status", PStr "ok"); ("mode", PStr "Production")]))))).
  exists 200%Z, [("status", PStr "ok"); ("mode", PStr "Production")].
  repeat split.
Defined.

(** X15. Against a running service the helper reads the stored mode: in
    every store the service can be in, after start-up and any sequence of
    requests and initializations, [get_current_mode] returns the value the
    store holds under ["environment_mode"]. *)
Theorem client_reads_the_stored_mode :
  forall (e : environ) (FLAGS0 : pydict) (evs : list event),
    let FLAGS := run evs (snd (_initialize_flags e FLAGS0)) in
    PyDict.lookup ENVIRONMENT_FLAG_NAME FLAGS
    = Some (PStr (Client.get_current_mode_of FLAGS)).
Proof.
  intros e FLAGS0 evs FLAGS.
  assert (Inv : mode_invariant FLAGS)
    by apply run_preserves, initialize_establishes.
  unfold Client.get_current_mode_of, dispatch.
  destruct Inv as [Hl | Hl]; rewrite (get_mode_present _ _ Hl), Hl; reflexivity.
Qed.

(** X16. The helper follows [POST /mode]: once a mode text has been
    accepted with 200, the helper returns the mode of the reply, until the
    mode is written again. *)
Theorem client_follows_set_mode :
  forall (request : Request) (FLAGS : pydict) (reply : Response),
    fst (dispatch (POST_mode request) FLAGS) = Returned reply ->
    status reply = 200%Z ->
    PyDict.lookup "mode" (body reply)
    = Some (PStr (Client.get_current_mode_of (snd (dispatch (POST_mode request) FLAGS)))).
Proof.
  intros request FLAGS reply Hr Hs. unfold dispatch in *.
  destruct (set_mode_cases request FLAGS) as [[_ Hno] | (d & _ & _ & Ha & Heq)].
  - rewrite Hr in Hno. simpl in Hno. contradiction.
  - rewrite Heq in *. cbn [fst snd] in *. injection Hr as <-.
    cbv zeta in Ha. apply in_ALLOWED_MODES_iff in Ha.
    unfold Client.get_current_mode_of, dispatch.
    rewrite (get_mode_present _ _ (lookup_set_same _ _ _)).
    destruct Ha as [-> | ->]; reflexivity.
Qed.

Lemma client_follows_set_mode_witness :
  PyDict.lookup "mode" (body (ok_mode_response "production"))
  = Some (PStr (Client.get_current_mode_of
                  (snd (dispatch (post_mode (PStr "PRODUCTION")) (startup []))))).
Proof.
  apply (client_follows_set_mode
           (json_request (PDict [("mode", PStr "PRODUCTION")])) (startup [])
           (ok_mode_response "production"));
    reflexivity.
Defined.

(** *** The two ways to write the mode *)

(** X17. The two routes that write the mode differ on padding: [POST /mode]
    strips the text it is given, [POST /flags] under ["environment_mode"]
    does not.  A mode text that starts with white space is refused by
    [POST /flags] with 400 and the store unchanged, also when [POST /mode]
    accepts the same text. *)
Theorem padded_mode_refused_through_post_flags :
  forall (c : ascii) (s : string) (FLAGS : pydict),
    isspace c = true ->
    let padded := PStr (String c s) in
    status_code (fst (dispatch (post_flag (PStr ENVIRONMENT_FLAG_NAME) padded) FLAGS))
    = 400%Z /\
    snd (dispatch (post_flag (PStr ENVIRONMENT_FLAG_NAME) padded) FLAGS) = FLAGS /\
    (in_ALLOWED_MODES (strip (lower (String c s))) = true ->
     status_code (fst (dispatch (post_mode padded) FLAGS)) = 200%Z).
Proof.
  intros c s FLAGS Hc padded. subst padded.
  unfold dispatch, post_flag, post_mode.
  rewrite create_or_update_flag_object, set_mode_object. cbv zeta.
  change (py_str (PyDict.get "name" (PStr "")
                    [("name", PStr ENVIRONMENT_FLAG_NAME); ("value", PStr (String c s))]))
    with ENVIRONMENT_FLAG_NAME.
  change (PyDict.get "value" PNone
            [("name", PStr ENVIRONMENT_FLAG_NAME); ("value", PStr (String c s))])
    with (PStr (String c s)).
  change (py_str (PyDict.get "mode" (PStr "") [("mode", PStr (String c s))]))
    with (String c s).
  change (strip ENVIRONMENT_FLAG_NAME) with ENVIRONMENT_FLAG_NAME.
  change (String.eqb ENVIRONMENT_FLAG_NAME "") with false.
  change (String.eqb ENVIRONMENT_FLAG_NAME ENVIRONMENT_FLAG_NAME) with true.
  cbn [is_none py_str].
  assert (Hno : in_ALLOWED_MODES (lower (String c s)) = false).
  { apply in_ALLOWED_MODES_false. simpl lower.
    split; intros [= E _]; rewrite <- isspace_lower_char, E in Hc; discriminate. }
  rewrite Hno.
  split; [reflexivity|]. split; [reflexivity|].
  intros Ha. now rewrite Ha.
Qed.

Lemma padded_mode_refused_through_post_flags_witness :
  status_code
    (fst (dispatch (post_flag (PStr ENVIRONMENT_FLAG_NAME) (PStr " test")) (startup [])))
  = 400%Z /\
  status_code (fst (dispatch (post_mode (PStr " test")) (startup []))) = 200%Z.
Proof.
  destruct (padded_mode_refused_through_post_flags " "%char "test" (startup []) eq_refl)
    as (H400 & _ & H200).
  split; [exact H400 | apply H200; reflexivity].
Defined.
